(** * The component decorator pass of the Stencil compiler

    A shallow embedding of
    [src/compiler/transformers/decorators-to-static/component-decorator.ts]
    and the properties of its three parts: the style path normalizer, the
    annotation validator and the static member synthesizer.

    JavaScript values are modelled by the shapes the TypeScript declarations
    give them.  Objects used as maps from mode names to style lists are finite
    maps; the two collections the pass mutates (the diagnostics list and the
    list of new members) and the class node are threaded explicitly, and a
    JavaScript exception is an explicit [Thrown] completion that keeps the
    diagnostics pushed before it. *)

From Stdlib Require Import ZArith Ascii String.
From stdpp Require Import gmap strings list fin_maps.

Open Scope string_scope.
Open Scope list_scope.

(** ** JavaScript strings

    A string is modelled by the bytes of its UTF-8 encoding.  [trim] is the
    host's [String.prototype.trim]: it strips from both ends the code points
    that ECMAScript counts as white space or as line terminators, U+0009 to
    U+000D, U+0020, U+00A0, U+1680, U+2000 to U+200A, U+2028, U+2029, U+202F,
    U+205F, U+3000 and U+FEFF, each in its encoding of one, two or three
    bytes. *)
Module JS.

(** A white space code point of one byte. *)
Definition is_white_space (c : ascii) : bool :=
  let n := nat_of_ascii c in
  (n =? 9)%nat || (n =? 10)%nat || (n =? 11)%nat || (n =? 12)%nat
  || (n =? 13)%nat || (n =? 32)%nat.

(** A white space code point of two bytes: U+00A0. *)
Definition is_white_space2 (c1 c2 : ascii) : bool :=
  (nat_of_ascii c1 =? 194)%nat && (nat_of_ascii c2 =? 160)%nat.

(** A white space code point of three bytes. *)
Definition is_white_space3 (c1 c2 c3 : ascii) : bool :=
  let n1 := nat_of_ascii c1 in
  let n2 := nat_of_ascii c2 in
  let n3 := nat_of_ascii c3 in
  (n1 =? 225)%nat && (n2 =? 154)%nat && (n3 =? 128)%nat
  || (n1 =? 226)%nat && (n2 =? 128)%nat
     && ((128 <=? n3)%nat && (n3 <=? 138)%nat
         || (n3 =? 168)%nat || (n3 =? 169)%nat || (n3 =? 175)%nat)
  || (n1 =? 226)%nat && (n2 =? 129)%nat && (n3 =? 159)%nat
  || (n1 =? 227)%nat && (n2 =? 128)%nat && (n3 =? 128)%nat
  || (n1 =? 239)%nat && (n2 =? 187)%nat && (n3 =? 191)%nat.

(** Strips the white space at the head of a list of bytes; [ws2] and [ws3]
    recognise the code points of two and three bytes. *)
Fixpoint strip (ws2 : ascii → ascii → bool) (ws3 : ascii → ascii → ascii → bool)
    (l : list ascii) : list ascii :=
  match l with
  | [] => []
  | c1 :: l1 =>
      if is_white_space c1 then strip ws2 ws3 l1
      else match l1 with
           | [] => l
           | c2 :: l2 =>
               if ws2 c1 c2 then strip ws2 ws3 l2
               else match l2 with
                    | [] => l
                    | c3 :: l3 => if ws3 c1 c2 c3 then strip ws2 ws3 l3 else l
                    end
           end
  end.

Definition trim_start (s : string) : string :=
  string_of_list_ascii (strip is_white_space2 is_white_space3 (list_ascii_of_string s)).

(** The same from the end: the bytes are read in reverse. *)
Definition trim_end (s : string) : string :=
  string_of_list_ascii
    (rev (strip (λ c2 c1, is_white_space2 c1 c2) (λ c3 c2 c1, is_white_space3 c1 c2 c3)
            (rev (list_ascii_of_string s)))).

Definition trim (s : string) : string := trim_end (trim_start s).

(** Truthiness of a string value: every string but the empty one. *)
Definition truthy (s : string) : bool :=
  match s with EmptyString => false | String _ _ => true end.

(** Truthiness of a possibly undefined string. *)
Definition truthy_opt (s : option string) : bool :=
  match s with Some s => truthy s | None => false end.

(** The double quote character and the line feed, for message texts. *)
Definition dquote : string := String (ascii_of_nat 34) EmptyString.
Definition newline : string := String (ascii_of_nat 10) EmptyString.

(** U+00A0, the no-break space, and U+FEFF, the byte order mark. *)
Definition nbsp : string :=
  String (ascii_of_nat 194) (String (ascii_of_nat 160) EmptyString).
Definition bom : string :=
  String (ascii_of_nat 239) (String (ascii_of_nat 187) (String (ascii_of_nat 191) EmptyString)).

End JS.

(** ** Declarations ([d.ComponentOptions], [d.ModeStyles], [d.CompilerModeStyles]) *)

(** A value of type [string | string[]]. *)
Inductive Style :=
| StyleString (s : string)
| StyleArray (l : list string).

(** [d.ModeStyles] is [gmap string Style]; [d.CompilerModeStyles] is
    [gmap string (list string)]. *)

(** The [styleUrls] option: a flat list or a per-mode map. *)
Inductive StyleUrls :=
| UrlsArray (l : list string)
| UrlsModes (m : gmap string Style).

(** [tag] and [styles] are [None] when the field is absent or holds something
    that is not a string; the other fields are [None] when absent. *)
Record ComponentOptions := {
  tag : option string;
  shadow : bool;
  scoped : bool;
  styleUrl : option string;
  styleUrls : option StyleUrls;
  styles : option string;
  assetsDir : option string;
  assetsDirs : option (list string);
}.

(** The path capability of the host, [config.sys.path]. *)
Record Path := {
  dirname : string → string;
  extname : string → string;
  basename : string → string → string;
  join : string → string → string;
}.

Record Config := {
  _isTesting : bool;
  sys_path : Path;
}.

(** ** The style path normalizer *)

Definition Object_keys {V} (o : gmap string V) : list string :=
  (map_to_list o).*1.

Definition normalizeStyle (style : option Style) : list string :=
  match style with
  | Some (StyleArray l) => l
  | Some (StyleString s) => if JS.truthy s then [s] else []
  | None => []
  end.

Definition normalizeStyleUrls (styleUrls : gmap string Style) : gmap string (list string) :=
  foldl (λ compilerStyleUrls key,
           <[key := normalizeStyle (styleUrls !! key)]> compilerStyleUrls)
        ∅ (Object_keys styleUrls).

Definition useCss (config : Config) (stylePath : string) : string :=
  let sourceFileDir := dirname (sys_path config) stylePath in
  let sourceFileExt := extname (sys_path config) stylePath in
  let sourceFileName := basename (sys_path config) stylePath sourceFileExt in
  join (sys_path config) sourceFileDir (sourceFileName +:+ ".css").

(** [styleUrls[key]] is defined for every key the loop visits. *)
Definition normalizeExtension (config : Config) (styleUrls : gmap string (list string))
  : gmap string (list string) :=
  foldl (λ compilerStyleUrls key,
           <[key := useCss config <$> default [] (styleUrls !! key)]> compilerStyleUrls)
        ∅ (Object_keys styleUrls).

(** ** The part of [componentDecoratorToStatic] that builds the style maps

    The reserved default-mode key [DEFAULT_STYLE_MODE] is imported from
    [@utils]; it is a parameter here. *)
Section StyleMaps.

Variable DEFAULT_STYLE_MODE : string.

(** Lines 29 to 39: the default-mode bucket. *)
Definition defaultModeStyles (componentOptions : ComponentOptions) : list string :=
  let defaultModeStyles := [] in
  let defaultModeStyles :=
    match styleUrls componentOptions with
    | Some (UrlsArray l) => defaultModeStyles ++ normalizeStyle (Some (StyleArray l))
    | Some (UrlsModes m) => defaultModeStyles ++ normalizeStyle (m !! DEFAULT_STYLE_MODE)
    | None => defaultModeStyles
    end in
  match styleUrl componentOptions with
  | Some s =>
      if JS.truthy s then defaultModeStyles ++ normalizeStyle (Some (StyleString s))
      else defaultModeStyles
  | None => defaultModeStyles
  end.

(** Lines 41 to 47: the per-mode map, named [styleUrls] in the source. *)
Definition modeStyleUrls (componentOptions : ComponentOptions) : gmap string (list string) :=
  let styleUrls0 : gmap string (list string) :=
    match styleUrls componentOptions with
    | Some (UrlsModes m) => normalizeStyleUrls m
    | _ => ∅
    end in
  if (0 <? length (defaultModeStyles componentOptions))%nat
  then <[DEFAULT_STYLE_MODE := defaultModeStyles componentOptions]> styleUrls0
  else styleUrls0.

End StyleMaps.

(** ** The syntax tree and the symbol table, as far as the pass reads them *)

(** Identity of a node of the syntax tree. *)
Definition Node := nat.

Inductive SyntaxKind := ExtendsKeyword | ImplementsKeyword.

Global Instance SyntaxKind_eq_dec : EqDecision SyntaxKind.
Proof. solve_decision. Defined.

Record HeritageClause := {
  token : SyntaxKind;
  heritage_node : Node;
}.

(** A property of an object literal: a property assignment, with the text of
    its name and its initializer, or any other kind of element. *)
Inductive ObjectLiteralElementLike :=
| PropertyAssignment (name_text : string) (initializer : Node)
| OtherElement.

Inductive Expression :=
| ObjectLiteralExpression (properties : list ObjectLiteralElementLike)
| OtherExpression.

(** The expression of a decorator: a call, with the text of the called
    identifier when there is one, or anything else. *)
Inductive DecoratorExpression :=
| CallExpression (callee : option string) (arguments : list Expression)
| OtherDecoratorExpression.

Record Decorator := {
  decorator_node : Node;
  expression : DecoratorExpression;
}.

(** [name] is [cmpNode.name.text], absent for an anonymous class;
    [sourceFile] is [cmpNode.getSourceFile()]. *)
Record ClassDeclaration := {
  name : option string;
  heritageClauses : option (list HeritageClause);
  decorators : option (list Decorator);
  sourceFile : Node;
}.

Record Declaration := {
  declaration_node : Node;
  modifiers : option (list Node);
}.

Record Symbol := {
  flags : Z;
  symbol_name : string;
  valueDeclaration : option Declaration;
  declarations : list Declaration;
}.

Module SymbolFlags.
Definition Interface : Z := 64.
Definition TypeAlias : Z := 524288.
End SymbolFlags.

(** [getSymbolAtLocation] gives the module symbol of a source file, and
    nothing for a file that is not a module; [getExportsOfModule] lists the
    exports of a module symbol. *)
Record TypeChecker := {
  getSymbolAtLocation : Node → option Node;
  getExportsOfModule : Node → list Symbol;
}.

(** The exports of the module of the class, none when its source file is not
    a module. *)
Definition moduleExports (typeChecker : TypeChecker) (cmpNode : ClassDeclaration)
  : list Symbol :=
  match getSymbolAtLocation typeChecker (sourceFile cmpNode) with
  | Some moduleSymbol => getExportsOfModule typeChecker moduleSymbol
  | None => []
  end.

(** ** Diagnostics and completions *)

(** Modelled from the spec: [d.Diagnostic] of the declarations, one validation
    failure with its severity, its message and the node it is bound to. *)
Record Diagnostic := {
  level : string;
  messageText : string;
  node : option Node;
}.

Inductive Completion (A : Type) :=
| Normal (a : A)
| Thrown (e : string).
Arguments Normal {A} a.
Arguments Thrown {A} e.

(** A computation over the shared diagnostics list. *)
Definition Eff (A : Type) : Type := list Diagnostic → Completion A * list Diagnostic.

Global Instance Eff_ret : MRet Eff := λ A a diagnostics, (Normal a, diagnostics).

Global Instance Eff_bind : MBind Eff := λ A B f m diagnostics,
  match m diagnostics with
  | (Normal a, diagnostics) => f a diagnostics
  | (Thrown e, diagnostics) => (Thrown e, diagnostics)
  end.

Definition TypeError : string := "TypeError".

(** Modelled from the spec: [buildError] of [@utils] appends a fresh
    diagnostic of severity error to the list and returns it; the returned
    object is the element just pushed, here its index. *)
Definition buildError : Eff nat := λ diagnostics,
  (Normal (length diagnostics),
   diagnostics ++ [{| level := "error"; messageText := "build error"; node := None |}]).

(** [err.messageText = text] *)
Definition set_messageText (err : nat) (text : string) : Eff unit := λ diagnostics,
  (Normal (),
   alter (λ d, {| level := level d; messageText := text; node := node d |}) err diagnostics).

(** Modelled from the spec: [augmentDiagnosticWithNode] of [@utils] binds the
    diagnostic to a node; an undefined node leaves it unbound. *)
Definition augmentDiagnosticWithNode (err : nat) (n : option Node) : Eff unit := λ diagnostics,
  (Normal (),
   alter (λ d, {| level := level d; messageText := messageText d;
                  node := match n with Some _ => n | None => node d end |}) err diagnostics).

(** [array.forEach(callback)] *)
Fixpoint forEach {A} (l : list A) (callback : A → Eff unit) : Eff unit :=
  match l with
  | [] => mret ()
  | x :: l => callback x ;; forEach l callback
  end.

(** ** [findTagNode]

    The node is always a decorator here.  [ts.isObjectLiteralExpression] reads
    the kind of its argument, so a call without arguments throws. *)
Definition findTagNode (propName : string) (decorator : Decorator) : Completion Node :=
  match expression decorator with
  | CallExpression _ arguments =>
      match head arguments with
      | None => Thrown TypeError
      | Some (ObjectLiteralExpression properties) =>
          Normal (foldl (λ node p,
                           match p with
                           | PropertyAssignment name_text initializer =>
                               if bool_decide (name_text = propName) then initializer else node
                           | OtherElement => node
                           end)
                        (decorator_node decorator) properties)
      | Some OtherExpression => Normal (decorator_node decorator)
      end
  | OtherDecoratorExpression => Normal (decorator_node decorator)
  end.

Definition lift {A} (c : Completion A) : Eff A := λ diagnostics, (c, diagnostics).

(** ** What the pass imports from the rest of the compiler

    [DEFAULT_STYLE_MODE] and [validateComponentTag] come from [@utils],
    [CLASS_DECORATORS_TO_REMOVE] from [remove-stencil-import],
    [removeDecorators] and [getDeclarationParameters] from [transform-utils].
    [removeDecorators] rewrites the decorator list of the node it is given;
    [validateComponentTag] returns the text of the violated rule, if any;
    [getDeclarationParameter] is the value one argument of the annotation
    evaluates to, [None] for a value that is not an object. *)
Class Imports := {
  DEFAULT_STYLE_MODE : string;
  validateComponentTag : string → option string;
  CLASS_DECORATORS_TO_REMOVE : list string;
  removeDecorators : option (list Decorator) → list string → option (list Decorator);
  getDeclarationParameter : Expression → option ComponentOptions;
}.

(** Modelled from the spec: [getDeclarationParameters] of [transform-utils],
    the configuration objects read from the literal arguments of the
    annotation, one for each argument of its call. *)
Definition getDeclarationParameters `{Imports} (decorator : Decorator)
  : list (option ComponentOptions) :=
  match expression decorator with
  | CallExpression _ arguments => getDeclarationParameter <$> arguments
  | OtherDecoratorExpression => []
  end.

(** ** Message texts *)
Module Message.

Definition extends : string :=
  "Classes decorated with @Component can not extend from a base class."
  +:+ JS.newline
  +:+ "    Stencil needs to be able to switch between different base classes in order to implement the different output targets such as: lazy and raw web components.".

Definition encapsulation : string :=
  "Components cannot be " +:+ JS.dquote +:+ "scoped" +:+ JS.dquote +:+ " and "
  +:+ JS.dquote +:+ "shadow" +:+ JS.dquote
  +:+ " at the same time, they are mutually exclusive configurations.".

Definition decorators : string :=
  "Classes decorated with @Component can not be decorated with more decorators."
  +:+ JS.newline
  +:+ "    Stencil performs extensive static analysis on top of your components in order to generate the necessary metadata, runtime decorators at the components level make this task very hard.".

Definition tag_missing : string := "tag missing in component decorator".

Definition tag_invalid (tagError : string) : string :=
  tagError +:+ ". Please refer to https://html.spec.whatwg.org/multipage/custom-elements.html#valid-custom-element-name for more info.".

Definition exports : string :=
  "To allow efficient bundling, modules using @Component() can only have a single export which is the component class itself."
  +:+ JS.newline
  +:+ "      Any other exports should be moved to a separate file."
  +:+ JS.newline
  +:+ "      For further information check out: https://stenciljs.com/docs/module-bundling".

End Message.

(** ** [validateComponent] *)

(** Line 74: the first [extends] clause of the class, if any. *)
Definition extendNode (cmpNode : ClassDeclaration) : option HeritageClause :=
  heritageClauses cmpNode ≫= List.find (λ c, bool_decide (token c = ExtendsKeyword)).

(** Line 91: the first decorator of the class that is not the component
    decorator itself; decorators are compared by identity. *)
Definition otherDecorator (cmpNode : ClassDeclaration) (componentDecorator : Decorator)
  : option Decorator :=
  decorators cmpNode
    ≫= List.find (λ d, bool_decide (decorator_node d ≠ decorator_node componentDecorator)).

Section Validator.

Context `{Imports}.

(** The symbols left by the first filter of line 118. *)
Definition nonTypeSymbols (exports : list Symbol) : list Symbol :=
  filter (λ symbol, Z.land (flags symbol)
                      (Z.lor SymbolFlags.Interface SymbolFlags.TypeAlias) = 0%Z)
         exports.

(** Lines 117 to 119.  [getExportsOfModule] reads the module symbol it is
    given, so it throws for a source file that is not a module; the second
    filter reads [cmpNode.name.text] once for each symbol the first one
    kept. *)
Definition nonTypeExports (typeChecker : TypeChecker) (cmpNode : ClassDeclaration)
  : Completion (list Symbol) :=
  match getSymbolAtLocation typeChecker (sourceFile cmpNode) with
  | None => Thrown TypeError
  | Some moduleSymbol =>
      match nonTypeSymbols (getExportsOfModule typeChecker moduleSymbol) with
      | [] => Normal []
      | symbols =>
          match name cmpNode with
          | Some text => Normal (filter (λ symbol, symbol_name symbol ≠ text) symbols)
          | None => Thrown TypeError
          end
      end
  end.

(** Lines 126 to 128. *)
Definition errorNode (symbol : Symbol) : Completion (option Node) :=
  match valueDeclaration symbol with
  | Some declaration =>
      match modifiers declaration with
      | Some modifiers => Normal (head modifiers)
      | None => Thrown TypeError
      end
  | None => Normal (declaration_node <$> head (declarations symbol))
  end.

(** The callback of the loop of lines 121 to 131. *)
Definition reportExport (symbol : Symbol) : Eff unit :=
  err ← buildError;
  set_messageText err Message.exports ;;
  errorNode ← lift (errorNode symbol);
  augmentDiagnosticWithNode err errorNode.

Definition validateComponent (config : Config) (typeChecker : TypeChecker)
    (componentOptions : ComponentOptions) (cmpNode : ClassDeclaration)
    (componentDecorator : Decorator) : Eff bool :=
  match extendNode cmpNode with
  | Some extendNode =>
      err ← buildError;
      set_messageText err Message.extends ;;
      augmentDiagnosticWithNode err (Some (heritage_node extendNode)) ;;
      mret false
  | None =>
  if shadow componentOptions && scoped componentOptions then
    err ← buildError;
    set_messageText err Message.encapsulation ;;
    tagNode ← lift (findTagNode "scoped" componentDecorator);
    augmentDiagnosticWithNode err (Some tagNode) ;;
    mret false
  else
  match otherDecorator cmpNode componentDecorator with
  | Some otherDecorator =>
      err ← buildError;
      set_messageText err Message.decorators ;;
      augmentDiagnosticWithNode err (Some (decorator_node otherDecorator)) ;;
      mret false
  | None =>
  match tag componentOptions with
  | None =>
      err ← buildError;
      set_messageText err Message.tag_missing ;;
      augmentDiagnosticWithNode err (Some (decorator_node componentDecorator)) ;;
      mret false
  | Some tag =>
  if (String.length (JS.trim tag) =? 0)%nat then
    err ← buildError;
    set_messageText err Message.tag_missing ;;
    augmentDiagnosticWithNode err (Some (decorator_node componentDecorator)) ;;
    mret false
  else
  let tagError := validateComponentTag tag in
  match tagError with
  | Some (String c text) =>
      err ← buildError;
      set_messageText err (Message.tag_invalid (String c text)) ;;
      tagNode ← lift (findTagNode "tag" componentDecorator);
      augmentDiagnosticWithNode err (Some tagNode) ;;
      mret false
  | _ =>
  if negb (_isTesting config) then
    nonTypeExports ← lift (nonTypeExports typeChecker cmpNode);
    forEach nonTypeExports reportExport ;;
    if (0 <? length nonTypeExports)%nat then mret false else mret true
  else mret true
  end end end end.

End Validator.

(** ** [componentDecoratorToStatic] *)

(** Modelled from the spec: [convertValueToLiteral] of [transform-utils]
    turns a value (a string, a list, a per-mode map) into a literal node. *)
Inductive Literal :=
| LitString (s : string)
| LitArray (l : list string)
| LitModeStyles (m : gmap string (list string)).

(** Modelled from the spec: [createStaticGetter] of [transform-utils] makes the
    static member of the given name with the literal as its value.  A member
    that was in the list before the pass is an [ExistingMember]. *)
Inductive ClassElement :=
| createStaticGetter (propName : string) (value : Literal)
| ExistingMember (n : Node).

(** What an invocation leaves behind: how it completed, and the three objects
    it mutates. *)
Record Outcome := {
  completion : Completion unit;
  out_diagnostics : list Diagnostic;
  out_cmpNode : ClassDeclaration;
  out_newMembers : list ClassElement;
}.

Section Synthesizer.

Context `{Imports}.

(** Lines 20 to 69, the members pushed once validation has passed. *)
Definition synthesize (config : Config) (componentOptions : ComponentOptions)
    (newMembers : list ClassElement) : Completion (list ClassElement) :=
  match tag componentOptions with
  | None => Thrown TypeError
  | Some tag =>
  let newMembers := newMembers ++ [createStaticGetter "is" (LitString (JS.trim tag))] in
  let newMembers :=
    if shadow componentOptions then
      newMembers ++ [createStaticGetter "encapsulation" (LitString "shadow")]
    else if scoped componentOptions then
      newMembers ++ [createStaticGetter "encapsulation" (LitString "scoped")]
    else newMembers in
  let styleUrls := modeStyleUrls DEFAULT_STYLE_MODE componentOptions in
  let newMembers :=
    if (0 <? length (Object_keys styleUrls))%nat then
      (newMembers ++ [createStaticGetter "originalStyleUrls" (LitModeStyles styleUrls)])
        ++ [createStaticGetter "styleUrls" (LitModeStyles (normalizeExtension config styleUrls))]
    else newMembers in
  let assetsDirs := default [] (assetsDirs componentOptions) in
  let assetsDirs :=
    match assetsDir componentOptions with
    | Some dir => if JS.truthy dir then assetsDirs ++ [dir] else assetsDirs
    | None => assetsDirs
    end in
  let newMembers :=
    if (0 <? length assetsDirs)%nat then
      newMembers ++ [createStaticGetter "assetsDirs" (LitArray assetsDirs)]
    else newMembers in
  let newMembers :=
    match styles componentOptions with
    | Some styles =>
        let styles := JS.trim styles in
        if (0 <? String.length styles)%nat then
          newMembers ++ [createStaticGetter "styles" (LitString styles)]
        else newMembers
    | None => newMembers
    end in
  Normal newMembers
  end.

(** Line 9: the class node once [removeDecorators] has rewritten its
    decorator list. *)
Definition withoutClassDecorators (cmpNode : ClassDeclaration) : ClassDeclaration :=
  {| name := name cmpNode;
     heritageClauses := heritageClauses cmpNode;
     decorators := removeDecorators (decorators cmpNode) CLASS_DECORATORS_TO_REMOVE;
     sourceFile := sourceFile cmpNode |}.

Definition componentDecoratorToStatic (config : Config) (typeChecker : TypeChecker)
    (diagnostics : list Diagnostic) (cmpNode : ClassDeclaration)
    (newMembers : list ClassElement) (componentDecorator : Decorator) : Outcome :=
  let cmpNode := withoutClassDecorators cmpNode in
  match mjoin (head (getDeclarationParameters componentDecorator)) with
  | None =>
      {| completion := Normal (); out_diagnostics := diagnostics;
         out_cmpNode := cmpNode; out_newMembers := newMembers |}
  | Some componentOptions =>
      match validateComponent config typeChecker componentOptions cmpNode
              componentDecorator diagnostics with
      | (Thrown e, diagnostics) =>
          {| completion := Thrown e; out_diagnostics := diagnostics;
             out_cmpNode := cmpNode; out_newMembers := newMembers |}
      | (Normal false, diagnostics) =>
          {| completion := Normal (); out_diagnostics := diagnostics;
             out_cmpNode := cmpNode; out_newMembers := newMembers |}
      | (Normal true, diagnostics) =>
          match synthesize config componentOptions newMembers with
          | Normal newMembers =>
              {| completion := Normal (); out_diagnostics := diagnostics;
                 out_cmpNode := cmpNode; out_newMembers := newMembers |}
          | Thrown e =>
              {| completion := Thrown e; out_diagnostics := diagnostics;
                 out_cmpNode := cmpNode; out_newMembers := newMembers |}
          end
      end
  end.

End Synthesizer.

(** ** A model of the host's path module

    The pass takes [dirname], [extname], [basename] and [join] from the host.
    [posix_path] follows the POSIX flavour of that module on byte strings; it
    serves to run the pass on concrete paths.  [basename] is modelled for an
    extension that is empty or a suffix of the base name, which is how
    [useCss] calls it. *)
Module Posix.

Definition is_slash (c : ascii) : bool := Ascii.eqb c "/"%char.
Definition is_dot (c : ascii) : bool := Ascii.eqb c "."%char.

Fixpoint drop_while (p : ascii → bool) (l : list ascii) : list ascii :=
  match l with
  | c :: l' => if p c then drop_while p l' else l
  | [] => []
  end.

Fixpoint take_while (p : ascii → bool) (l : list ascii) : list ascii :=
  match l with
  | c :: l' => if p c then c :: take_while p l' else []
  | [] => []
  end.

Definition not_slash (c : ascii) : bool := negb (is_slash c).
Definition not_dot (c : ascii) : bool := negb (is_dot c).

(** The last segment of a path, trailing slashes left out. *)
Definition base (path : list ascii) : list ascii :=
  rev (take_while not_slash (drop_while is_slash (rev path))).

Definition dirname (path : string) : string :=
  match list_ascii_of_string path with
  | [] => "."
  | c0 :: rest =>
      let hasRoot := is_slash c0 in
      match drop_while not_slash (drop_while is_slash (rev rest)) with
      | [] => if hasRoot then "/" else "."
      | _ :: before =>
          if hasRoot && (length before =? 0)%nat then "//"
          else string_of_list_ascii (c0 :: rev before)
      end
  end.

Definition extname (path : string) : string :=
  let b := base (list_ascii_of_string path) in
  match drop_while not_dot (rev b) with
  | [] => ""
  | _ :: [] => ""
  | dot :: _ =>
      if bool_decide (b = ["."%char; "."%char]) then ""
      else string_of_list_ascii (dot :: rev (take_while not_dot (rev b)))
  end.

Definition basename (path ext : string) : string :=
  let b := base (list_ascii_of_string path) in
  let e := list_ascii_of_string ext in
  if bool_decide (ext ≠ "" ∧ ext = path) then ""
  else if bool_decide (e ≠ [] ∧ b ≠ e ∧ drop (length b - length e) b = e)
  then string_of_list_ascii (take (length b - length e) b)
  else string_of_list_ascii b.

(** The segments between slashes; [cur] is the segment being read, reversed. *)
Fixpoint segments (path cur : list ascii) : list (list ascii) :=
  match path with
  | [] => [rev cur]
  | c :: path' => if is_slash c then rev cur :: segments path' [] else segments path' (c :: cur)
  end.

(** One step of [normalizeString]: [res] holds the kept segments, last first. *)
Definition normalize_step (allowAboveRoot : bool) (res : list (list ascii))
    (segment : list ascii) : list (list ascii) :=
  if bool_decide (segment = [] ∨ segment = ["."%char]) then res
  else if bool_decide (segment = ["."%char; "."%char]) then
    match res with
    | last :: res' =>
        if bool_decide (last = ["."%char; "."%char]) then segment :: res else res'
    | [] => if allowAboveRoot then [segment] else []
    end
  else segment :: res.

Fixpoint join_segments (l : list (list ascii)) : list ascii :=
  match l with
  | [] => []
  | [s] => s
  | s :: l' => s ++ "/"%char :: join_segments l'
  end.

Definition normalize (path : string) : string :=
  match list_ascii_of_string path with
  | [] => "."
  | (c0 :: _) as chars =>
      let isAbsolute := is_slash c0 in
      let trailingSeparator :=
        match rev chars with c :: _ => is_slash c | [] => false end in
      let kept := rev (foldl (normalize_step (negb isAbsolute)) [] (segments chars [])) in
      match join_segments kept with
      | [] => if isAbsolute then "/" else if trailingSeparator then "./" else "."
      | p =>
          let p := if trailingSeparator then p ++ ["/"%char] else p in
          string_of_list_ascii (if isAbsolute then "/"%char :: p else p)
      end
  end.

Definition join (a b : string) : string :=
  match a, b with
  | "", "" => "."
  | "", _ => normalize b
  | _, "" => normalize a
  | _, _ => normalize (a +:+ "/" +:+ b)
  end.

End Posix.

Definition posix_path : Path :=
  {| dirname := Posix.dirname; extname := Posix.extname;
     basename := Posix.basename; join := Posix.join |}.

(** ** An instance of the imports, to run the pass

    The properties below hold for every instance of [Imports]; this one
    serves to evaluate the pass on concrete inputs. *)
Module Stencil.

Definition decorator_name (decorator : Decorator) : option string :=
  match expression decorator with
  | CallExpression callee _ => callee
  | OtherDecoratorExpression => None
  end.

(** Modelled from the spec: [removeDecorators] of [transform-utils] strips
    from the annotation list the annotations whose name is in the given set;
    a list left empty becomes undefined. *)
Definition removeDecorators (decorators : option (list Decorator))
    (decoratorNames : list string) : option (list Decorator) :=
  match decorators with
  | None => None
  | Some decorators =>
      match List.filter (λ dec,
               match decorator_name dec with
               | Some text => negb (bool_decide (text ∈ decoratorNames))
               | None => true
               end) decorators with
      | [] => None
      | updatedDecoratorList => Some updatedDecoratorList
      end
  end.

(** Modelled from the spec: the naming-rule checker [validateComponentTag]
    of [@utils], here with the one rule that a tag contains a hyphen. *)
Definition validateComponentTag (tag : string) : option string :=
  if existsb (Ascii.eqb "-"%char) (list_ascii_of_string tag) then None
  else Some (JS.dquote +:+ tag +:+ JS.dquote
             +:+ " tag must contain a dash (-) to work as a valid web component").

End Stencil.

Definition stencil_imports (evaluate : Expression → option ComponentOptions) : Imports :=
  {| DEFAULT_STYLE_MODE := "$";
     validateComponentTag := Stencil.validateComponentTag;
     CLASS_DECORATORS_TO_REMOVE := ["Component"];
     removeDecorators := Stencil.removeDecorators;
     getDeclarationParameter := evaluate |}.

(** ** Definitions used to state the properties *)

Definition error (text : string) (n : option Node) : Diagnostic :=
  {| level := "error"; messageText := text; node := n |}.

(** The sub-node of a named argument of the annotation: the initializer of
    the last property assignment of that name in the object literal that is
    the first argument of the annotation's call, when there is one. *)
Definition property_named (propName : string) (p : ObjectLiteralElementLike) : option Node :=
  match p with
  | PropertyAssignment name_text initializer =>
      if bool_decide (name_text = propName) then Some initializer else None
  | OtherElement => None
  end.

Definition argumentNode (propName : string) (decorator : Decorator) : option Node :=
  match expression decorator with
  | CallExpression _ (ObjectLiteralExpression properties :: _) =>
      last (omap (property_named propName) properties)
  | _ => None
  end.

(** The diagnostic of one offending export (lines 122 to 130). *)
Definition exportError (symbol : Symbol) : Diagnostic :=
  error Message.exports
    match valueDeclaration symbol with
    | Some declaration => modifiers declaration ≫= head
    | None => declaration_node <$> head (declarations symbol)
    end.

(** The exports the single-export rule forbids: neither an interface nor a
    type alias, and not named as the class. *)
Definition offending (cmpNode : ClassDeclaration) (symbol : Symbol) : Prop :=
  Z.land (flags symbol) SymbolFlags.Interface = 0%Z
  ∧ Z.land (flags symbol) SymbolFlags.TypeAlias = 0%Z
  ∧ Some (symbol_name symbol) ≠ name cmpNode.

Global Instance offending_dec cmpNode symbol : Decision (offending cmpNode symbol).
Proof. unfold offending. apply _. Defined.

(** The value declaration of the symbol, when it has one, carries a list of
    modifiers. *)
Definition errorNode_defined (symbol : Symbol) : Prop :=
  ∀ declaration, valueDeclaration symbol = Some declaration →
    is_Some (modifiers declaration).

(** ** The checks that precede the single-export rule *)
Section EarlierChecks.

Context `{Imports}.

(** The checks before the single-export rule all pass. *)
Definition earlier_checks_pass (componentOptions : ComponentOptions)
    (cmpNode : ClassDeclaration) (componentDecorator : Decorator) : Prop :=
  extendNode cmpNode = None
  ∧ shadow componentOptions && scoped componentOptions = false
  ∧ otherDecorator cmpNode componentDecorator = None
  ∧ ∃ text, tag componentOptions = Some text
      ∧ JS.trim text ≠ ""
      ∧ JS.truthy_opt (validateComponentTag text) = false.

End EarlierChecks.

(** ** The style maps, as the specification describes them

    These definitions follow the words of the specification and use none of
    the functions of the pass. *)

(** A bare string or a list becomes a list: a list stays as it is, a string
    is wrapped, and the empty string gives no entry. *)
Definition style_list (style : Style) : list string :=
  match style with
  | StyleArray l => l
  | StyleString "" => []
  | StyleString s => [s]
  end.

(** What the [styleUrl] option contributes to the default-mode list. *)
Definition styleUrl_list (componentOptions : ComponentOptions) : list string :=
  match styleUrl componentOptions with
  | Some "" | None => []
  | Some s => [s]
  end.

(** The default-mode bucket: the flat [styleUrls] list, or the entry of the
    per-mode map under the default-mode key, followed by the [styleUrl]
    entry. *)
Definition expected_default_list (defaultMode : string)
    (componentOptions : ComponentOptions) : list string :=
  match styleUrls componentOptions with
  | Some (UrlsArray l) => l
  | Some (UrlsModes m) =>
      match m !! defaultMode with Some style => style_list style | None => [] end
  | None => []
  end ++ styleUrl_list componentOptions.

(** The normalized per-mode map: every mode of a per-mode map with its list,
    and the default-mode bucket under the default-mode key when it is not
    empty. *)
Definition expected_styleUrls (defaultMode : string)
    (componentOptions : ComponentOptions) : gmap string (list string) :=
  let modes : gmap string (list string) :=
    match styleUrls componentOptions with
    | Some (UrlsModes m) => style_list <$> m
    | _ => ∅
    end in
  match expected_default_list defaultMode componentOptions with
  | [] => modes
  | l => <[defaultMode := l]> modes
  end.

(** The compiled path: the directory of the path joined with its base name,
    extension removed, followed by [.css]. *)
Definition css_path (config : Config) (stylePath : string) : string :=
  join (sys_path config) (dirname (sys_path config) stylePath)
    (basename (sys_path config) stylePath (extname (sys_path config) stylePath)
     +:+ ".css").

(** ** The synthesized members, as the specification lists them *)
Section Members.

Context `{Imports}.

Definition is_member (text : string) : list ClassElement :=
  [createStaticGetter "is" (LitString (JS.trim text))].

Definition encapsulation_member (componentOptions : ComponentOptions) : list ClassElement :=
  if shadow componentOptions then
    [createStaticGetter "encapsulation" (LitString "shadow")]
  else if scoped componentOptions then
    [createStaticGetter "encapsulation" (LitString "scoped")]
  else [].

Definition styleUrls_members (config : Config) (componentOptions : ComponentOptions)
  : list ClassElement :=
  let original := modeStyleUrls DEFAULT_STYLE_MODE componentOptions in
  if bool_decide (original = ∅) then []
  else [createStaticGetter "originalStyleUrls" (LitModeStyles original);
        createStaticGetter "styleUrls"
          (LitModeStyles (fmap (M := list) (useCss config) <$> original))].

(** The two style members, from the maps of the specification. *)
Definition expected_style_members (config : Config) (componentOptions : ComponentOptions)
  : list ClassElement :=
  let original := expected_styleUrls DEFAULT_STYLE_MODE componentOptions in
  if bool_decide (original = ∅) then []
  else [createStaticGetter "originalStyleUrls" (LitModeStyles original);
        createStaticGetter "styleUrls"
          (LitModeStyles (fmap (M := list) (css_path config) <$> original))].

Definition assetsDirs_member (componentOptions : ComponentOptions) : list ClassElement :=
  let dirs :=
    default [] (assetsDirs componentOptions)
    ++ match assetsDir componentOptions with
       | Some dir => if JS.truthy dir then [dir] else []
       | None => []
       end in
  if bool_decide (dirs = []) then []
  else [createStaticGetter "assetsDirs" (LitArray dirs)].

Definition styles_member (componentOptions : ComponentOptions) : list ClassElement :=
  match styles componentOptions with
  | Some text =>
      if bool_decide (JS.trim text = "") then []
      else [createStaticGetter "styles" (LitString (JS.trim text))]
  | None => []
  end.

End Members.

(** ** Concrete inputs *)
Module Example.

(** [@Component({ tag: ..., styleUrl: ..., scoped: ... })] *)
Definition componentDecorator : Decorator :=
  {| decorator_node := 10;
     expression :=
       CallExpression (Some "Component")
         [ObjectLiteralExpression
            [PropertyAssignment "tag" 11; PropertyAssignment "styleUrl" 12;
             PropertyAssignment "scoped" 13]] |}.

(** [class MyCmp] *)
Definition cmpNode : ClassDeclaration :=
  {| name := Some "MyCmp"; heritageClauses := None;
     decorators := Some [componentDecorator]; sourceFile := 1 |}.

(** [class MyCmp extends Base implements Shape] *)
Definition cmpNode_extends : ClassDeclaration :=
  {| name := Some "MyCmp";
     heritageClauses :=
       Some [{| token := ExtendsKeyword; heritage_node := 20 |};
             {| token := ImplementsKeyword; heritage_node := 21 |}];
     decorators := Some [componentDecorator]; sourceFile := 1 |}.

(** [export class MyCmp] *)
Definition classSymbol : Symbol :=
  {| flags := 32; symbol_name := "MyCmp";
     valueDeclaration := Some {| declaration_node := 2; modifiers := Some [3] |};
     declarations := [{| declaration_node := 2; modifiers := Some [3] |}] |}.

(** [export interface Props] *)
Definition interfaceSymbol : Symbol :=
  {| flags := 64; symbol_name := "Props"; valueDeclaration := None;
     declarations := [{| declaration_node := 4; modifiers := Some [5] |}] |}.

(** [export function helper() {}] *)
Definition functionSymbol : Symbol :=
  {| flags := 16; symbol_name := "helper";
     valueDeclaration := Some {| declaration_node := 6; modifiers := Some [7] |};
     declarations := [{| declaration_node := 6; modifiers := Some [7] |}] |}.

(** [export const VERSION = 1]: the modifiers are on the variable statement,
    the variable declaration itself has none. *)
Definition constSymbol : Symbol :=
  {| flags := 2; symbol_name := "VERSION";
     valueDeclaration := Some {| declaration_node := 8; modifiers := None |};
     declarations := [{| declaration_node := 8; modifiers := None |}] |}.

(** [export const BUILD = 2] *)
Definition otherConstSymbol : Symbol :=
  {| flags := 2; symbol_name := "BUILD";
     valueDeclaration := Some {| declaration_node := 9; modifiers := None |};
     declarations := [{| declaration_node := 9; modifiers := None |}] |}.

Definition exporting (symbols : list Symbol) : TypeChecker :=
  {| getSymbolAtLocation := λ _, Some 0; getExportsOfModule := λ _, symbols |}.

Definition build : Config := {| _isTesting := false; sys_path := posix_path |}.
Definition testing : Config := {| _isTesting := true; sys_path := posix_path |}.

(** [{ tag: 'my-cmp' }] *)
Definition options : ComponentOptions :=
  {| tag := Some "my-cmp"; shadow := false; scoped := false; styleUrl := None;
     styleUrls := None; styles := None; assetsDir := None; assetsDirs := None |}.

(** [{ tag: 'my-cmp', styleUrl: 'a.scss' }] *)
Definition options_styleUrl : ComponentOptions :=
  {| tag := Some "my-cmp"; shadow := false; scoped := false;
     styleUrl := Some "a.scss"; styleUrls := None; styles := None;
     assetsDir := None; assetsDirs := None |}.

(** [{ tag: 'my-cmp', styleUrl: 'a.scss', styleUrls: ['b.scss'] }] *)
Definition options_list : ComponentOptions :=
  {| tag := Some "my-cmp"; shadow := false; scoped := false;
     styleUrl := Some "a.scss"; styleUrls := Some (UrlsArray ["b.scss"]);
     styles := None; assetsDir := None; assetsDirs := None |}.

(** [{ ios: 'b.scss', md: ['c.scss', 'd.scss'] }] *)
Definition modes : gmap string Style :=
  {[ "ios" := StyleString "b.scss"; "md" := StyleArray ["c.scss"; "d.scss"] ]}.

(** [{ tag: 'my-cmp', styleUrl: 'a.scss', styleUrls: { ios: ..., md: ... } }] *)
Definition options_modes : ComponentOptions :=
  {| tag := Some "my-cmp"; shadow := false; scoped := false;
     styleUrl := Some "a.scss"; styleUrls := Some (UrlsModes modes);
     styles := None; assetsDir := None; assetsDirs := None |}.

(** [{ tag: 'my-cmp', styleUrl: 'a.scss', styleUrls: { $: 'z.scss', ios: ... } }] *)
Definition options_default_mode : ComponentOptions :=
  {| tag := Some "my-cmp"; shadow := false; scoped := false;
     styleUrl := Some "a.scss";
     styleUrls := Some (UrlsModes {[ "$" := StyleString "z.scss";
                                     "ios" := StyleString "b.scss" ]});
     styles := None; assetsDir := None; assetsDirs := None |}.

(** [{ tag: 'my-cmp', shadow: true, styleUrl: 'a.scss', styles: ' :host {} ',
       assetsDir: 'img', assetsDirs: ['fonts'] }] *)
Definition options_full : ComponentOptions :=
  {| tag := Some "my-cmp"; shadow := true; scoped := false;
     styleUrl := Some "a.scss"; styleUrls := None; styles := Some " :host {} ";
     assetsDir := Some "img"; assetsDirs := Some ["fonts"] |}.

(** [{ tag: 'my-cmp', shadow: true, scoped: true }] *)
Definition options_shadow_scoped : ComponentOptions :=
  {| tag := Some "my-cmp"; shadow := true; scoped := true; styleUrl := None;
     styleUrls := None; styles := None; assetsDir := None; assetsDirs := None |}.

(** The imports when the annotation evaluates to the given options. *)
Definition imports (componentOptions : ComponentOptions) : Imports :=
  stencil_imports (λ _, Some componentOptions).

(** The pass on a class of a module with the given exports, with empty
    diagnostics and member lists. *)
Definition run (config : Config) (componentOptions : ComponentOptions)
    (cmpNode : ClassDeclaration) (exports : list Symbol) : Outcome :=
  componentDecoratorToStatic (H := imports componentOptions) config
    (exporting exports) [] cmpNode [] componentDecorator.

End Example.

(** ** Decidable equality of members *)

Global Instance Literal_eq_dec : EqDecision Literal.
Proof. solve_decision. Defined.

Global Instance ClassElement_eq_dec : EqDecision ClassElement.
Proof. solve_decision. Defined.

(** ** Further definitions and inputs *)

(** The name of a synthesized member. *)
Definition member_name (member : ClassElement) : option string :=
  match member with
  | createStaticGetter propName _ => Some propName
  | ExistingMember _ => None
  end.

(** The names the synthesizer gives to members. *)
Definition member_names : list string :=
  ["is"; "encapsulation"; "originalStyleUrls"; "styleUrls"; "assetsDirs"; "styles"].

Module Inputs.

(** [{ tag: '  ' }] *)
Definition options_blank_tag : ComponentOptions :=
  {| tag := Some "  "; shadow := false; scoped := false; styleUrl := None;
     styleUrls := None; styles := None; assetsDir := None; assetsDirs := None |}.

(** [{ tag: '\u00a0' }] *)
Definition options_nbsp_tag : ComponentOptions :=
  {| tag := Some JS.nbsp; shadow := false; scoped := false; styleUrl := None;
     styleUrls := None; styles := None; assetsDir := None; assetsDirs := None |}.

(** [{ tag: 'my-cmp', styles: '\u00a0' }] *)
Definition options_nbsp_styles : ComponentOptions :=
  {| tag := Some "my-cmp"; shadow := false; scoped := false; styleUrl := None;
     styleUrls := None; styles := Some JS.nbsp; assetsDir := None;
     assetsDirs := None |}.

(** [{ tag: 'mycmp' }] *)
Definition options_no_hyphen : ComponentOptions :=
  {| tag := Some "mycmp"; shadow := false; scoped := false; styleUrl := None;
     styleUrls := None; styles := None; assetsDir := None; assetsDirs := None |}.

(** [@Other()] *)
Definition otherDecoratorNode : Decorator :=
  {| decorator_node := 30; expression := CallExpression (Some "Other") [] |}.

(** [@Other() class MyCmp], the component decorator already removed. *)
Definition cmpNode_decorated : ClassDeclaration :=
  {| name := Some "MyCmp"; heritageClauses := None;
     decorators := Some [otherDecoratorNode]; sourceFile := 1 |}.

(** [@Third()] *)
Definition thirdDecoratorNode : Decorator :=
  {| decorator_node := 31; expression := CallExpression (Some "Third") [] |}.

(** [@Component(...) @Other() @Third() class MyCmp], as the validator sees it
    when nothing was removed from the decorator list. *)
Definition cmpNode_three_decorators : ClassDeclaration :=
  {| name := Some "MyCmp"; heritageClauses := None;
     decorators := Some [Example.componentDecorator; otherDecoratorNode;
                         thirdDecoratorNode];
     sourceFile := 1 |}.

(** A type checker for a source file that is not a module. *)
Definition notAModule : TypeChecker :=
  {| getSymbolAtLocation := λ _, None; getExportsOfModule := λ _, [] |}.

(** [@Component({ scoped: a, tag: b, scoped: c })] *)
Definition decorator_twice : Decorator :=
  {| decorator_node := 40;
     expression :=
       CallExpression (Some "Component")
         [ObjectLiteralExpression
            [PropertyAssignment "scoped" 41; PropertyAssignment "tag" 42;
             PropertyAssignment "scoped" 43];
          OtherExpression] |}.

End Inputs.

(** * Properties *)

(** ** The models on small inputs *)

Example trim_tag : JS.trim "  my-cmp " = "my-cmp".
Proof. reflexivity. Qed.

Example trim_white_space : JS.trim "   " = "".
Proof. reflexivity. Qed.

Example trim_unicode_white_space :
  JS.trim JS.nbsp = ""
  ∧ JS.trim (JS.bom +:+ " my-cmp" +:+ JS.nbsp +:+ JS.newline) = "my-cmp"
  ∧ JS.trim ("a" +:+ JS.nbsp +:+ "b") = "a" +:+ JS.nbsp +:+ "b".
Proof. repeat split. Qed.

Example useCss_posix :
  useCss Example.build "./styles/../cmp/my-cmp.scss" = "cmp/my-cmp.css".
Proof. reflexivity. Qed.

Example normalizeStyleUrls_modes :
  normalizeStyleUrls Example.modes
  = {[ "ios" := ["b.scss"]; "md" := ["c.scss"; "d.scss"] ]}.
Proof. vm_compute. reflexivity. Qed.

(** A module that exports the class and a function: one diagnostic, bound to
    the first modifier of the function declaration, and validation fails. *)
Example validateComponent_exported_function :
  validateComponent (H := Example.imports Example.options) Example.build
    (Example.exporting [Example.classSymbol; Example.functionSymbol])
    Example.options Example.cmpNode Example.componentDecorator []
  = (Normal false, [error Message.exports (Some 7)]).
Proof. vm_compute. reflexivity. Qed.

(** A module that exports the class and an interface passes. *)
Example validateComponent_exported_interface :
  validateComponent (H := Example.imports Example.options) Example.build
    (Example.exporting [Example.classSymbol; Example.interfaceSymbol])
    Example.options Example.cmpNode Example.componentDecorator []
  = (Normal true, []).
Proof. vm_compute. reflexivity. Qed.

(** ** Lemmas on the key loops *)

Lemma foldl_assign_lookup {V} (f : string → V) (keys : list string)
    (init : gmap string V) (k : string) :
  foldl (λ acc key, <[key := f key]> acc) init keys !! k
  = if decide (k ∈ keys) then Some (f k) else init !! k.
Proof.
  revert init. induction keys as [|x keys IH]; intros init.
  - case_decide as Hin; [by apply not_elem_of_nil in Hin|done].
  - cbn [foldl]. rewrite IH.
    destruct (decide (k ∈ keys)) as [Hin|Hin]; case_decide as Hin'.
    + done.
    + exfalso. apply Hin'. by apply list_elem_of_further.
    + apply elem_of_cons in Hin' as [->|?]; [|done].
      by rewrite lookup_insert_eq.
    + rewrite lookup_insert_ne; [done|].
      intros ->. apply Hin', list_elem_of_here.
Qed.

Lemma elem_of_Object_keys {V} (o : gmap string V) (k : string) :
  k ∈ Object_keys o ↔ is_Some (o !! k).
Proof.
  unfold Object_keys. rewrite list_elem_of_fmap. split.
  - intros [[k' v] [-> Hin]]. apply elem_of_map_to_list in Hin. by exists v.
  - intros [v Hv]. exists (k, v). split; [done|]. by apply elem_of_map_to_list.
Qed.

Lemma normalizeStyleUrls_lookup (m : gmap string Style) (k : string) :
  normalizeStyleUrls m !! k = (λ v, normalizeStyle (Some v)) <$> m !! k.
Proof.
  unfold normalizeStyleUrls.
  rewrite (foldl_assign_lookup (λ key, normalizeStyle (m !! key))).
  destruct (decide (k ∈ Object_keys m)) as [Hin|Hin].
  - apply elem_of_Object_keys in Hin as [v Hv]. by rewrite Hv.
  - destruct (m !! k) as [v|] eqn:Hv; [|done].
    exfalso. apply Hin, elem_of_Object_keys. by exists v.
Qed.

Lemma normalizeExtension_lookup (config : Config) (m : gmap string (list string)) (k : string) :
  normalizeExtension config m !! k = fmap (useCss config) <$> m !! k.
Proof.
  unfold normalizeExtension.
  rewrite (foldl_assign_lookup (λ key, useCss config <$> default [] (m !! key))).
  destruct (decide (k ∈ Object_keys m)) as [Hin|Hin].
  - apply elem_of_Object_keys in Hin as [v Hv]. by rewrite Hv.
  - destruct (m !! k) as [v|] eqn:Hv; [|done].
    exfalso. apply Hin, elem_of_Object_keys. by exists v.
Qed.

(** ** Lists of diagnostics *)

Lemma alter_last {A} (f : A → A) (l : list A) (d : A) :
  alter f (length l) (l ++ [d]) = l ++ [f d].
Proof.
  replace (length l) with (length l + 0)%nat by lia.
  by rewrite alter_app_r.
Qed.

(** Runs the monadic steps of a branch of the validator. *)
Ltac run_eff :=
  repeat (unfold mbind, Eff_bind, mret, Eff_ret, buildError, set_messageText,
            augmentDiagnosticWithNode, lift;
          cbn beta iota;
          rewrite ?alter_last; cbn [level messageText node]).

(** ** Properties of the validator *)
Section ValidatorProperties.

Context `{Imports}.

Lemma validateComponent_extends config typeChecker componentOptions cmpNode
    componentDecorator diagnostics c :
  extendNode cmpNode = Some c →
  validateComponent config typeChecker componentOptions cmpNode componentDecorator
    diagnostics
  = (Normal false, diagnostics ++ [error Message.extends (Some (heritage_node c))]).
Proof.
  unfold validateComponent. intros ->. by run_eff.
Qed.

Lemma findTagNode_foldl propName properties init :
  foldl (λ node p,
           match p with
           | PropertyAssignment name_text initializer =>
               if bool_decide (name_text = propName) then initializer else node
           | OtherElement => node
           end) init properties
  = default init (last (omap (property_named propName) properties)).
Proof.
  revert init. induction properties as [|p properties IH]; intros init; [done|].
  cbn [foldl]. rewrite IH. destruct p as [name_text initializer|]; [|done].
  change (omap ?f (?x :: ?l)) with
    (match f x with Some y => y :: omap f l | None => omap f l end).
  cbn [property_named]. case_bool_decide; [|done].
  rewrite last_cons. by destruct (last _).
Qed.

(** [findTagNode] returns the named argument sub-node when there is one and
    the annotation node otherwise, as soon as the call has an argument. *)
Lemma findTagNode_argumentNode propName decorator callee arg arguments :
  expression decorator = CallExpression callee (arg :: arguments) →
  findTagNode propName decorator
  = Normal (default (decorator_node decorator) (argumentNode propName decorator)).
Proof.
  intros Hexpr. unfold findTagNode, argumentNode. rewrite Hexpr. cbn [head].
  destruct arg as [properties|]; [|done].
  by rewrite findTagNode_foldl.
Qed.

Lemma getDeclarationParameters_Some decorator componentOptions :
  mjoin (head (getDeclarationParameters decorator)) = Some componentOptions →
  ∃ callee arg arguments,
    expression decorator = CallExpression callee (arg :: arguments).
Proof.
  unfold getDeclarationParameters.
  destruct (expression decorator) as [callee [|arg arguments]|]; try done.
  intros _. by exists callee, arg, arguments.
Qed.

Lemma validateComponent_encapsulation config typeChecker componentOptions cmpNode
    componentDecorator diagnostics tagNode :
  extendNode cmpNode = None →
  shadow componentOptions = true → scoped componentOptions = true →
  findTagNode "scoped" componentDecorator = Normal tagNode →
  validateComponent config typeChecker componentOptions cmpNode componentDecorator
    diagnostics
  = (Normal false, diagnostics ++ [error Message.encapsulation (Some tagNode)]).
Proof.
  unfold validateComponent. intros -> -> -> Htag. cbn [andb].
  run_eff. rewrite Htag. by run_eff.
Qed.

(** A validation that returns true went through every check. *)
Lemma validateComponent_true config typeChecker componentOptions cmpNode
    componentDecorator diagnostics :
  (validateComponent config typeChecker componentOptions cmpNode componentDecorator
     diagnostics).1 = Normal true →
  ∃ text, tag componentOptions = Some text
    ∧ JS.trim text ≠ ""
    ∧ extendNode cmpNode = None
    ∧ shadow componentOptions && scoped componentOptions = false.
Proof.
  unfold validateComponent.
  destruct (extendNode cmpNode); [by run_eff|].
  destruct (shadow componentOptions && scoped componentOptions).
  { run_eff. by destruct (findTagNode _ _); run_eff. }
  destruct (otherDecorator _ _); [by run_eff|].
  destruct (tag componentOptions) as [text|]; [|by run_eff].
  destruct (String.length (JS.trim text) =? 0)%nat eqn:Hlen; [by run_eff|].
  intros _. exists text. repeat split; try done.
  intros Heq. by rewrite Heq in Hlen.
Qed.

Lemma nonTypeSymbols_filter exports :
  nonTypeSymbols exports
  = filter (λ symbol, Z.land (flags symbol) SymbolFlags.Interface = 0%Z
                      ∧ Z.land (flags symbol) SymbolFlags.TypeAlias = 0%Z) exports.
Proof.
  unfold nonTypeSymbols. apply list_filter_iff. intros symbol.
  by rewrite Z.land_lor_distr_r, Z.lor_eq_0_iff.
Qed.

Lemma nonTypeExports_offending typeChecker cmpNode text moduleSymbol :
  getSymbolAtLocation typeChecker (sourceFile cmpNode) = Some moduleSymbol →
  name cmpNode = Some text →
  nonTypeExports typeChecker cmpNode
  = Normal (filter (offending cmpNode)
              (moduleExports typeChecker cmpNode)).
Proof.
  intros Hmodule Hname. unfold nonTypeExports, moduleExports. rewrite Hmodule, Hname.
  assert (filter (λ symbol, symbol_name symbol ≠ text)
            (nonTypeSymbols (getExportsOfModule typeChecker moduleSymbol))
          = filter (offending cmpNode)
              (getExportsOfModule typeChecker moduleSymbol)) as <-.
  { rewrite nonTypeSymbols_filter, list_filter_filter.
    apply list_filter_iff. intros symbol. unfold offending. rewrite Hname.
    split; [intros (? & ? & ?)|intros (? & ? & ?)]; repeat split; congruence. }
  by destruct (nonTypeSymbols _).
Qed.

Lemma reportExport_defined symbol diagnostics :
  errorNode_defined symbol →
  reportExport symbol diagnostics = (Normal (), diagnostics ++ [exportError symbol]).
Proof.
  intros Hdef. unfold reportExport, errorNode, exportError, error.
  destruct (valueDeclaration symbol) as [declaration|] eqn:Hdecl; run_eff.
  - destruct (Hdef declaration Hdecl) as [modifiers ->]. run_eff.
    change (option_bind _ _ head (Some modifiers)) with (head modifiers).
    destruct (head modifiers); reflexivity.
  - destruct (head (declarations symbol)); reflexivity.
Qed.

Lemma forEach_reportExport symbols diagnostics :
  Forall errorNode_defined symbols →
  forEach symbols reportExport diagnostics
  = (Normal (), diagnostics ++ (exportError <$> symbols)).
Proof.
  intros Hdef. revert diagnostics.
  induction Hdef as [|symbol symbols Hsymbol _ IH]; intros diagnostics.
  - by rewrite app_nil_r.
  - cbn [forEach fmap list_fmap]. unfold mbind, Eff_bind.
    rewrite reportExport_defined by done. rewrite IH.
    by rewrite <- app_assoc.
Qed.

Lemma validateComponent_testing config typeChecker componentOptions cmpNode
    componentDecorator diagnostics :
  earlier_checks_pass componentOptions cmpNode componentDecorator →
  _isTesting config = true →
  validateComponent config typeChecker componentOptions cmpNode componentDecorator
    diagnostics = (Normal true, diagnostics).
Proof.
  intros (Hext & Henc & Hdec & text & Htag & Htrim & Herr) Htest.
  unfold validateComponent. rewrite Hext, Henc, Hdec, Htag, Htest.
  destruct (String.length (JS.trim text) =? 0)%nat eqn:Hlen.
  { apply Nat.eqb_eq in Hlen. by destruct (JS.trim text). }
  by destruct (validateComponentTag text) as [[|c e]|].
Qed.

Lemma validateComponent_exports config typeChecker componentOptions cmpNode
    componentDecorator diagnostics text moduleSymbol :
  earlier_checks_pass componentOptions cmpNode componentDecorator →
  _isTesting config = false →
  getSymbolAtLocation typeChecker (sourceFile cmpNode) = Some moduleSymbol →
  name cmpNode = Some text →
  let offenders :=
    filter (offending cmpNode) (moduleExports typeChecker cmpNode) in
  Forall errorNode_defined offenders →
  validateComponent config typeChecker componentOptions cmpNode componentDecorator
    diagnostics
  = (Normal (bool_decide (offenders = [])), diagnostics ++ (exportError <$> offenders)).
Proof.
  intros (Hext & Henc & Hdec & tagText & Htag & Htrim & Herr) Htest Hmodule Hname
    offenders Hdef.
  unfold validateComponent. rewrite Hext, Henc, Hdec, Htag, Htest.
  destruct (String.length (JS.trim tagText) =? 0)%nat eqn:Hlen.
  { apply Nat.eqb_eq in Hlen. by destruct (JS.trim tagText). }
  assert (∀ k : Eff bool,
    match validateComponentTag tagText with
    | Some (String c e) =>
        err ← buildError;
        set_messageText err (Message.tag_invalid (String c e)) ;;
        tagNode ← lift (findTagNode "tag" componentDecorator);
        augmentDiagnosticWithNode err (Some tagNode) ;; mret false
    | _ => k
    end = k) as -> by (by destruct (validateComponentTag tagText) as [[|c e]|]).
  cbn [negb]. rewrite (nonTypeExports_offending _ _ _ _ Hmodule Hname). fold offenders.
  unfold mbind, Eff_bind, lift. rewrite forEach_reportExport by done.
  destruct offenders; by rewrite ?app_nil_r.
Qed.

End ValidatorProperties.

(** ** Properties of the synthesizer *)
Section SynthesizerProperties.

Context `{Imports}.

Lemma normalizeExtension_fmap config (m : gmap string (list string)) :
  normalizeExtension config m = fmap (M := list) (useCss config) <$> m.
Proof.
  apply map_eq. intros k. by rewrite normalizeExtension_lookup, lookup_fmap.
Qed.

Lemma normalizeStyleUrls_fmap (m : gmap string Style) :
  normalizeStyleUrls m = (λ v, normalizeStyle (Some v)) <$> m.
Proof.
  apply map_eq. intros k. by rewrite normalizeStyleUrls_lookup, lookup_fmap.
Qed.

Lemma Object_keys_empty {V} (m : gmap string V) :
  (0 <? length (Object_keys m))%nat = negb (bool_decide (m = ∅)).
Proof.
  unfold Object_keys. rewrite length_fmap, length_map_to_list.
  case_bool_decide as Hm.
  - subst m. by rewrite map_size_empty.
  - apply Nat.ltb_lt. apply map_size_non_empty_iff in Hm. lia.
Qed.

Lemma length_positive {A} `{EqDecision A} (l : list A) :
  (0 <? length l)%nat = negb (bool_decide (l = [])).
Proof. by destruct l. Qed.

Lemma String_length_positive (s : string) :
  (0 <? String.length s)%nat = negb (bool_decide (s = "")).
Proof. by destruct s. Qed.

Lemma synthesize_members config componentOptions newMembers text :
  tag componentOptions = Some text →
  synthesize config componentOptions newMembers
  = Normal (newMembers ++ is_member text ++ encapsulation_member componentOptions
              ++ styleUrls_members config componentOptions
              ++ assetsDirs_member componentOptions
              ++ styles_member componentOptions).
Proof.
  intros Htag. unfold synthesize. rewrite Htag. f_equal.
  unfold is_member, encapsulation_member, styleUrls_members, assetsDirs_member,
    styles_member.
  rewrite Object_keys_empty, normalizeExtension_fmap, length_positive.
  set (dirs := default [] (assetsDirs componentOptions)).
  assert (match assetsDir componentOptions with
          | Some dir => if JS.truthy dir then dirs ++ [dir] else dirs
          | None => dirs
          end
          = dirs ++ match assetsDir componentOptions with
                    | Some dir => if JS.truthy dir then [dir] else []
                    | None => []
                    end) as ->.
  { destruct (assetsDir componentOptions) as [dir|]; [destruct (JS.truthy dir)|];
      by rewrite ?app_nil_r. }
  destruct (styles componentOptions) as [css|];
    rewrite ?String_length_positive;
    repeat case_bool_decide;
    destruct (shadow componentOptions), (scoped componentOptions);
    cbn [negb]; by rewrite <- ?app_assoc, ?app_nil_r.
Qed.

Lemma normalizeStyle_style_list (style : Style) :
  normalizeStyle (Some style) = style_list style.
Proof. by destruct style as [[|c s]|l]. Qed.

Lemma defaultModeStyles_expected (defaultMode : string) componentOptions :
  defaultModeStyles defaultMode componentOptions
  = expected_default_list defaultMode componentOptions.
Proof.
  unfold defaultModeStyles, expected_default_list, styleUrl_list.
  destruct (styleUrls componentOptions) as [[l|m]|];
    [| destruct (m !! defaultMode) as [style|];
       rewrite ?normalizeStyle_style_list |];
    destruct (styleUrl componentOptions) as [[|c s]|];
    cbn [JS.truthy normalizeStyle app]; by rewrite ?app_nil_r.
Qed.

Lemma modeStyleUrls_expected (defaultMode : string) componentOptions :
  modeStyleUrls defaultMode componentOptions
  = expected_styleUrls defaultMode componentOptions.
Proof.
  unfold modeStyleUrls, expected_styleUrls. rewrite defaultModeStyles_expected.
  assert (match styleUrls componentOptions with
          | Some (UrlsModes m) => normalizeStyleUrls m
          | _ => ∅
          end
          = match styleUrls componentOptions with
            | Some (UrlsModes m) => style_list <$> m
            | _ => (∅ : gmap string (list string))
            end) as ->.
  { destruct (styleUrls componentOptions) as [[l|m]|]; try done.
    rewrite normalizeStyleUrls_fmap. apply map_fmap_ext.
    intros mode style _. apply normalizeStyle_style_list. }
  by destruct (expected_default_list defaultMode componentOptions).
Qed.

Lemma styleUrls_members_expected config componentOptions :
  styleUrls_members config componentOptions
  = expected_style_members config componentOptions.
Proof.
  unfold styleUrls_members, expected_style_members.
  by rewrite modeStyleUrls_expected.
Qed.

End SynthesizerProperties.

(** ** Properties of the whole pass *)
Section PassProperties.

Context `{Imports}.

Lemma extendNode_withoutClassDecorators cmpNode :
  extendNode (withoutClassDecorators cmpNode) = extendNode cmpNode.
Proof. reflexivity. Qed.

(** The outcome when validation returns true. *)
Lemma pass_valid config typeChecker diagnostics cmpNode newMembers componentDecorator
    componentOptions :
  mjoin (head (getDeclarationParameters componentDecorator)) = Some componentOptions →
  (validateComponent config typeChecker componentOptions
     (withoutClassDecorators cmpNode) componentDecorator diagnostics).1 = Normal true →
  ∃ text, tag componentOptions = Some text ∧
    componentDecoratorToStatic config typeChecker diagnostics cmpNode newMembers
      componentDecorator
    = {| completion := Normal ();
         out_diagnostics :=
           (validateComponent config typeChecker componentOptions
              (withoutClassDecorators cmpNode) componentDecorator diagnostics).2;
         out_cmpNode := withoutClassDecorators cmpNode;
         out_newMembers :=
           newMembers ++ is_member text ++ encapsulation_member componentOptions
             ++ styleUrls_members config componentOptions
             ++ assetsDirs_member componentOptions
             ++ styles_member componentOptions |}.
Proof.
  intros Hopts Hvalid.
  destruct (validateComponent_true _ _ _ _ _ _ Hvalid) as (text & Htag & _).
  exists text. split; [done|].
  unfold componentDecoratorToStatic. rewrite Hopts.
  destruct (validateComponent _ _ _ _ _ _) as [result diagnostics'].
  cbn [fst snd] in *. subst result.
  by rewrite (synthesize_members _ _ _ _ Htag).
Qed.

(** The outcome when validation does not return true. *)
Lemma pass_invalid config typeChecker diagnostics cmpNode newMembers componentDecorator
    componentOptions :
  mjoin (head (getDeclarationParameters componentDecorator)) = Some componentOptions →
  (validateComponent config typeChecker componentOptions
     (withoutClassDecorators cmpNode) componentDecorator diagnostics).1 ≠ Normal true →
  componentDecoratorToStatic config typeChecker diagnostics cmpNode newMembers
    componentDecorator
  = {| completion :=
         match (validateComponent config typeChecker componentOptions
                  (withoutClassDecorators cmpNode) componentDecorator diagnostics).1 with
         | Normal _ => Normal ()
         | Thrown e => Thrown e
         end;
       out_diagnostics :=
         (validateComponent config typeChecker componentOptions
            (withoutClassDecorators cmpNode) componentDecorator diagnostics).2;
       out_cmpNode := withoutClassDecorators cmpNode;
       out_newMembers := newMembers |}.
Proof.
  intros Hopts Hinvalid. unfold componentDecoratorToStatic. rewrite Hopts.
  destruct (validateComponent _ _ _ _ _ _) as [[[]|e] diagnostics']; try done.
Qed.

Lemma styleUrls_members_elem config componentOptions :
  modeStyleUrls DEFAULT_STYLE_MODE componentOptions ≠ ∅ →
  styleUrls_members config componentOptions
  = [createStaticGetter "originalStyleUrls"
       (LitModeStyles (modeStyleUrls DEFAULT_STYLE_MODE componentOptions));
     createStaticGetter "styleUrls"
       (LitModeStyles (fmap (M := list) (useCss config)
                         <$> modeStyleUrls DEFAULT_STYLE_MODE componentOptions))].
Proof. intros Hne. unfold styleUrls_members. by rewrite bool_decide_false. Qed.

(** A valid configuration with style sources gets both style members. *)
Lemma pass_valid_styleUrls config typeChecker diagnostics cmpNode newMembers
    componentDecorator componentOptions :
  mjoin (head (getDeclarationParameters componentDecorator)) = Some componentOptions →
  (validateComponent config typeChecker componentOptions
     (withoutClassDecorators cmpNode) componentDecorator diagnostics).1 = Normal true →
  modeStyleUrls DEFAULT_STYLE_MODE componentOptions ≠ ∅ →
  createStaticGetter "originalStyleUrls"
    (LitModeStyles (modeStyleUrls DEFAULT_STYLE_MODE componentOptions))
    ∈ out_newMembers (componentDecoratorToStatic config typeChecker diagnostics cmpNode
                        newMembers componentDecorator)
  ∧ createStaticGetter "styleUrls"
      (LitModeStyles (fmap (M := list) (useCss config)
                        <$> modeStyleUrls DEFAULT_STYLE_MODE componentOptions))
    ∈ out_newMembers (componentDecoratorToStatic config typeChecker diagnostics cmpNode
                        newMembers componentDecorator).
Proof.
  intros Hopts Hvalid Hne.
  destruct (pass_valid _ _ _ cmpNode newMembers _ _ Hopts Hvalid) as (text & _ & ->).
  cbn [out_newMembers]. rewrite (styleUrls_members_elem _ _ Hne).
  rewrite !elem_of_app, !elem_of_cons. naive_solver.
Qed.

End PassProperties.

(** ** The claims *)
Section Claims.

Context `{Imports}.

(** C7. A class with an extends clause fails validation: whatever the
    other fields of the configuration, the validator returns false and
    appends one diagnostic, bound to the node of the extends clause. *)
Theorem extends_clause_fails_validation config typeChecker componentOptions cmpNode
    componentDecorator diagnostics clauses :
  heritageClauses cmpNode = Some clauses →
  (∃ c, c ∈ clauses ∧ token c = ExtendsKeyword) →
  ∃ c, c ∈ clauses ∧ token c = ExtendsKeyword
    ∧ validateComponent config typeChecker componentOptions cmpNode componentDecorator
        diagnostics
      = (Normal false, diagnostics ++ [error Message.extends (Some (heritage_node c))]).
Proof.
  intros Hclauses (c0 & Hin & Htoken).
  destruct (List.find (λ c, bool_decide (token c = ExtendsKeyword)) clauses)
    as [c|] eqn:Hfind.
  - destruct (find_some _ _ Hfind) as [Hc Hextends].
    exists c. split; [by apply list_elem_of_In|].
    split; [by apply bool_decide_eq_true in Hextends|].
    apply validateComponent_extends. unfold extendNode. by rewrite Hclauses.
  - exfalso. apply list_elem_of_In in Hin.
    pose proof (find_none _ _ Hfind c0 Hin) as Hfalse. cbn beta in Hfalse.
    by rewrite bool_decide_true in Hfalse.
Qed.

(** C6 (amended). With [shadow] and [scoped] both true the pass appends
    exactly one diagnostic and no member.  On a class without an extends
    clause the diagnostic is bound to the [scoped] argument sub-node when
    the annotation has one and to the annotation node otherwise; on a class
    with an extends clause it is bound to that clause, whose check comes
    first. *)
Theorem shadow_and_scoped_one_diagnostic config typeChecker diagnostics cmpNode
    newMembers componentDecorator componentOptions :
  mjoin (head (getDeclarationParameters componentDecorator)) = Some componentOptions →
  shadow componentOptions = true →
  scoped componentOptions = true →
  ∃ d,
    out_diagnostics (componentDecoratorToStatic config typeChecker diagnostics cmpNode
                       newMembers componentDecorator) = diagnostics ++ [d]
    ∧ out_newMembers (componentDecoratorToStatic config typeChecker diagnostics cmpNode
                        newMembers componentDecorator) = newMembers
    ∧ level d = "error"
    ∧ node d = Some match extendNode cmpNode with
                    | Some c => heritage_node c
                    | None => default (decorator_node componentDecorator)
                                (argumentNode "scoped" componentDecorator)
                    end.
Proof.
  intros Hopts Hshadow Hscoped.
  pose proof (pass_invalid config typeChecker diagnostics cmpNode newMembers
                componentDecorator componentOptions Hopts) as Hpass.
  destruct (extendNode cmpNode) as [c|] eqn:Hext.
  - rewrite (validateComponent_extends _ _ _ (withoutClassDecorators cmpNode) _ _ c Hext)
      in Hpass.
    rewrite Hpass by done. by eexists.
  - destruct (getDeclarationParameters_Some _ _ Hopts) as (callee & arg & args & Hexpr).
    rewrite (validateComponent_encapsulation _ _ _ (withoutClassDecorators cmpNode)
               _ _ _ Hext Hshadow Hscoped
               (findTagNode_argumentNode "scoped" _ _ _ _ Hexpr)) in Hpass.
    rewrite Hpass by done. by eexists.
Qed.

(** C2. For a configuration that passes validation the pass appends to the
    members it was given, in this order, [is] with the trimmed tag, then
    [encapsulation], [originalStyleUrls] with the normalized per-mode map,
    [styleUrls] with the compiled map, [assetsDirs] and [styles], each only
    when its source is not empty; when validation does not pass nothing is
    appended, so [is] is among the appended members exactly when validation
    passed. *)
Theorem synthesized_members_in_order config typeChecker diagnostics cmpNode newMembers
    componentDecorator componentOptions :
  mjoin (head (getDeclarationParameters componentDecorator)) = Some componentOptions →
  ((validateComponent config typeChecker componentOptions
      (withoutClassDecorators cmpNode) componentDecorator diagnostics).1 = Normal true →
   ∃ text, tag componentOptions = Some text
     ∧ out_newMembers (componentDecoratorToStatic config typeChecker diagnostics cmpNode
                         newMembers componentDecorator)
       = newMembers
           ++ [createStaticGetter "is" (LitString (JS.trim text))]
           ++ encapsulation_member componentOptions
           ++ expected_style_members config componentOptions
           ++ assetsDirs_member componentOptions
           ++ styles_member componentOptions)
  ∧ ((validateComponent config typeChecker componentOptions
        (withoutClassDecorators cmpNode) componentDecorator diagnostics).1 ≠ Normal true →
     out_newMembers (componentDecoratorToStatic config typeChecker diagnostics cmpNode
                       newMembers componentDecorator) = newMembers).
Proof.
  intros Hopts. split.
  - intros Hvalid.
    destruct (pass_valid _ _ _ cmpNode newMembers _ _ Hopts Hvalid) as (text & Htag & ->).
    exists text. split; [done|]. cbn [out_newMembers].
    by rewrite styleUrls_members_expected.
  - intros Hinvalid. by rewrite (pass_invalid _ _ _ _ _ _ _ Hopts Hinvalid).
Qed.

(** C1 (amended). When [styleUrls] is a flat list and [styleUrl] is given
    too, a configuration that passes validation gets one default-mode list,
    the entries of the [styleUrls] list followed by the [styleUrl] entry. *)
Theorem styleUrls_list_precedes_styleUrl config typeChecker diagnostics cmpNode
    newMembers componentDecorator componentOptions l s :
  mjoin (head (getDeclarationParameters componentDecorator)) = Some componentOptions →
  styleUrls componentOptions = Some (UrlsArray l) →
  styleUrl componentOptions = Some s →
  JS.truthy s = true →
  (validateComponent config typeChecker componentOptions
     (withoutClassDecorators cmpNode) componentDecorator diagnostics).1 = Normal true →
  modeStyleUrls DEFAULT_STYLE_MODE componentOptions = {[ DEFAULT_STYLE_MODE := l ++ [s] ]}
  ∧ createStaticGetter "originalStyleUrls"
      (LitModeStyles {[ DEFAULT_STYLE_MODE := l ++ [s] ]})
    ∈ out_newMembers (componentDecoratorToStatic config typeChecker diagnostics cmpNode
                        newMembers componentDecorator).
Proof.
  intros Hopts Hurls Hurl Hs Hvalid.
  assert (modeStyleUrls DEFAULT_STYLE_MODE componentOptions
          = {[ DEFAULT_STYLE_MODE := l ++ [s] ]}) as Hmap.
  { unfold modeStyleUrls, defaultModeStyles. rewrite Hurls, Hurl, Hs.
    cbn [normalizeStyle app]. rewrite Hs, length_app. cbn [length].
    replace (0 <? length l + 1)%nat with true by (symmetry; apply Nat.ltb_lt; lia).
    done. }
  split; [done|]. rewrite <- Hmap.
  apply pass_valid_styleUrls; [done..|].
  rewrite Hmap. apply insert_non_empty.
Qed.

(** C3. With a per-mode map every mode is normalized on its own and the
    [styleUrl] entry goes under the default-mode key only: a key other than
    the default one holds the normalized value of the map, and the map
    [{ios: "b.scss", md: ["c.scss", "d.scss"]}] with [styleUrl] ["a.scss"]
    becomes [{ios: ["b.scss"], md: ["c.scss", "d.scss"], default: ["a.scss"]}]. *)
Theorem per_mode_map_normalization (defaultMode : string) componentOptions
    (m : gmap string Style) :
  styleUrls componentOptions = Some (UrlsModes m) →
  (∀ mode, mode ≠ defaultMode →
     modeStyleUrls defaultMode componentOptions !! mode
     = (λ v, normalizeStyle (Some v)) <$> m !! mode)
  ∧ (m = {[ "ios" := StyleString "b.scss"; "md" := StyleArray ["c.scss"; "d.scss"] ]} →
     styleUrl componentOptions = Some "a.scss" →
     defaultMode ≠ "ios" → defaultMode ≠ "md" →
     modeStyleUrls defaultMode componentOptions
     = {[ "ios" := ["b.scss"]; "md" := ["c.scss"; "d.scss"];
          defaultMode := ["a.scss"] ]}).
Proof.
  intros Hurls. split.
  - intros mode Hmode. unfold modeStyleUrls. rewrite Hurls.
    destruct (0 <? _)%nat; rewrite ?lookup_insert_ne by done;
      apply normalizeStyleUrls_lookup.
  - intros -> Hurl Hios Hmd.
    unfold modeStyleUrls, defaultModeStyles. rewrite Hurls, Hurl.
    rewrite lookup_insert_ne, lookup_singleton_ne by done.
    cbn [JS.truthy normalizeStyle app length Nat.ltb Nat.leb].
    rewrite normalizeStyleUrls_fmap.
    apply map_eq. intros mode.
    destruct (decide (mode = defaultMode)) as [Hdefault|Hdefault];
      destruct (decide (mode = "ios")) as [Hmode_ios|Hmode_ios];
      destruct (decide (mode = "md")) as [Hmode_md|Hmode_md];
      by simplify_map_eq.
Qed.

(** C10. When the per-mode map has an entry under the default-mode key, the
    default-mode list is that entry (a list as it is, a string as one entry)
    followed by the [styleUrl] entry, and this list stands under the
    default-mode key, in place of the map's own entry, in both emitted maps:
    as it is in [originalStyleUrls], with every path compiled in
    [styleUrls]. *)
Theorem default_mode_key_in_map config typeChecker diagnostics cmpNode newMembers
    componentDecorator componentOptions (m : gmap string Style) v :
  mjoin (head (getDeclarationParameters componentDecorator)) = Some componentOptions →
  styleUrls componentOptions = Some (UrlsModes m) →
  m !! DEFAULT_STYLE_MODE = Some v →
  (validateComponent config typeChecker componentOptions
     (withoutClassDecorators cmpNode) componentDecorator diagnostics).1 = Normal true →
  modeStyleUrls DEFAULT_STYLE_MODE componentOptions
  = <[ DEFAULT_STYLE_MODE :=
         match v with
         | StyleArray l => l
         | StyleString "" => []
         | StyleString s => [s]
         end ++ match styleUrl componentOptions with
                | Some "" | None => []
                | Some s => [s]
                end ]>
      (style_list <$> m)
  ∧ createStaticGetter "originalStyleUrls"
      (LitModeStyles
         (<[ DEFAULT_STYLE_MODE :=
               match v with
               | StyleArray l => l
               | StyleString "" => []
               | StyleString s => [s]
               end ++ match styleUrl componentOptions with
                      | Some "" | None => []
                      | Some s => [s]
                      end ]>
            (style_list <$> m)))
    ∈ out_newMembers (componentDecoratorToStatic config typeChecker diagnostics cmpNode
                        newMembers componentDecorator)
  ∧ createStaticGetter "styleUrls"
      (LitModeStyles
         (fmap (M := list) (css_path config)
            <$> <[ DEFAULT_STYLE_MODE :=
                     match v with
                     | StyleArray l => l
                     | StyleString "" => []
                     | StyleString s => [s]
                     end ++ match styleUrl componentOptions with
                            | Some "" | None => []
                            | Some s => [s]
                            end ]>
                  (style_list <$> m)))
    ∈ out_newMembers (componentDecoratorToStatic config typeChecker diagnostics cmpNode
                        newMembers componentDecorator).
Proof.
  intros Hopts Hurls Hdefault Hvalid.
  assert (modeStyleUrls DEFAULT_STYLE_MODE componentOptions
          = <[ DEFAULT_STYLE_MODE := style_list v ++ styleUrl_list componentOptions ]>
              (style_list <$> m)) as Hmap.
  { rewrite modeStyleUrls_expected. unfold expected_styleUrls, expected_default_list.
    rewrite Hurls, Hdefault.
    destruct (style_list v ++ styleUrl_list componentOptions)
      as [|x combined] eqn:Hcombined; [|done].
    symmetry. apply insert_id. rewrite lookup_fmap, Hdefault.
    cbn [fmap option_fmap option_map].
    by apply app_eq_nil in Hcombined as [-> _]. }
  change (match v with
          | StyleArray l => l
          | StyleString "" => []
          | StyleString s => [s]
          end) with (style_list v).
  change (match styleUrl componentOptions with
          | Some "" | None => []
          | Some s => [s]
          end) with (styleUrl_list componentOptions).
  split; [done|].
  assert (modeStyleUrls DEFAULT_STYLE_MODE componentOptions ≠ ∅) as Hne
    by (rewrite Hmap; apply insert_non_empty).
  destruct (pass_valid_styleUrls config typeChecker diagnostics cmpNode newMembers
              componentDecorator componentOptions Hopts Hvalid Hne) as [Horig Hcss].
  rewrite Hmap in Horig, Hcss. by split.
Qed.

(** C8. For a configuration that passes validation and has style sources,
    the [styleUrls] member holds the normalized map with [useCss] applied to
    every path of every mode, where [useCss] joins the directory of the path
    with its base name, extension removed, followed by [.css].  With
    [styleUrl] ["a.scss"] and no [styleUrls], on a host that takes the
    directory of ["a.scss"] to ["."], its extension to [".scss"], its base
    name to ["a"] and joins ["."] and ["a.css"] into ["a.css"], the pass
    emits [originalStyleUrls] with the default-mode list [["a.scss"]] and
    [styleUrls] with the default-mode list [["a.css"]]. *)
Theorem compiled_styleUrls_use_css config typeChecker diagnostics cmpNode newMembers
    componentDecorator componentOptions :
  mjoin (head (getDeclarationParameters componentDecorator)) = Some componentOptions →
  (validateComponent config typeChecker componentOptions
     (withoutClassDecorators cmpNode) componentDecorator diagnostics).1 = Normal true →
  (modeStyleUrls DEFAULT_STYLE_MODE componentOptions ≠ ∅ →
   createStaticGetter "styleUrls"
     (LitModeStyles
        (normalizeExtension config (modeStyleUrls DEFAULT_STYLE_MODE componentOptions)))
   ∈ out_newMembers (componentDecoratorToStatic config typeChecker diagnostics cmpNode
                       newMembers componentDecorator))
  ∧ (∀ (original : gmap string (list string)) mode,
       normalizeExtension config original !! mode
       = fmap (useCss config) <$> original !! mode)
  ∧ (∀ stylePath,
       useCss config stylePath
       = join (sys_path config) (dirname (sys_path config) stylePath)
           (basename (sys_path config) stylePath (extname (sys_path config) stylePath)
            +:+ ".css"))
  ∧ (styleUrl componentOptions = Some "a.scss" →
     styleUrls componentOptions = None →
     dirname (sys_path config) "a.scss" = "." →
     extname (sys_path config) "a.scss" = ".scss" →
     basename (sys_path config) "a.scss" ".scss" = "a" →
     join (sys_path config) "." "a.css" = "a.css" →
     createStaticGetter "originalStyleUrls"
       (LitModeStyles {[ DEFAULT_STYLE_MODE := ["a.scss"] ]})
     ∈ out_newMembers (componentDecoratorToStatic config typeChecker diagnostics cmpNode
                         newMembers componentDecorator)
     ∧ createStaticGetter "styleUrls"
         (LitModeStyles {[ DEFAULT_STYLE_MODE := ["a.css"] ]})
       ∈ out_newMembers (componentDecoratorToStatic config typeChecker diagnostics
                           cmpNode newMembers componentDecorator)).
Proof.
  intros Hopts Hvalid. split; [|split; [|split]].
  - intros Hne. rewrite normalizeExtension_fmap.
    by apply pass_valid_styleUrls.
  - apply normalizeExtension_lookup.
  - done.
  - intros Hurl Hurls Hdir Hext Hbase Hjoin.
    assert (modeStyleUrls DEFAULT_STYLE_MODE componentOptions
            = {[ DEFAULT_STYLE_MODE := ["a.scss"] ]}) as Hmap
      by (unfold modeStyleUrls, defaultModeStyles; by rewrite Hurl, Hurls).
    assert (modeStyleUrls DEFAULT_STYLE_MODE componentOptions ≠ ∅) as Hne
      by (rewrite Hmap; apply insert_non_empty).
    destruct (pass_valid_styleUrls config typeChecker diagnostics cmpNode newMembers
                componentDecorator componentOptions Hopts Hvalid Hne) as [Horig Hcss].
    rewrite Hmap in Horig. split; [done|].
    rewrite Hmap, map_fmap_singleton in Hcss. cbn [fmap list_fmap] in Hcss.
    unfold useCss in Hcss. rewrite Hdir, Hext, Hbase in Hcss.
    change ("a" +:+ ".css") with "a.css" in Hcss. by rewrite Hjoin in Hcss.
Qed.

(** C9 (amended). The annotation is removed from the annotation list of the
    class as the first step of the pass, on every invocation: the class
    node the pass leaves behind is the one [removeDecorators] produced, it
    no longer lists the component annotation, and this holds as well when
    there is no configuration object, when validation fails and when it
    passes; validation itself runs on the node without the annotation. *)
Theorem decorators_removed_first config typeChecker diagnostics cmpNode newMembers
    componentDecorator text :
  removeDecorators = Stencil.removeDecorators →
  Stencil.decorator_name componentDecorator = Some text →
  text ∈ CLASS_DECORATORS_TO_REMOVE →
  out_cmpNode (componentDecoratorToStatic config typeChecker diagnostics cmpNode
                 newMembers componentDecorator) = withoutClassDecorators cmpNode
  ∧ (∀ remaining,
       decorators (out_cmpNode (componentDecoratorToStatic config typeChecker diagnostics
                                  cmpNode newMembers componentDecorator))
       = Some remaining →
       componentDecorator ∉ remaining)
  ∧ (∀ componentOptions,
       mjoin (head (getDeclarationParameters componentDecorator)) = Some componentOptions →
       out_diagnostics (componentDecoratorToStatic config typeChecker diagnostics cmpNode
                          newMembers componentDecorator)
       = (validateComponent config typeChecker componentOptions
            (withoutClassDecorators cmpNode) componentDecorator diagnostics).2)
  ∧ (mjoin (head (getDeclarationParameters componentDecorator)) = None →
     componentDecoratorToStatic config typeChecker diagnostics cmpNode newMembers
       componentDecorator
     = {| completion := Normal (); out_diagnostics := diagnostics;
          out_cmpNode := withoutClassDecorators cmpNode;
          out_newMembers := newMembers |}).
Proof.
  intros Hremove Hname Hin.
  assert (out_cmpNode (componentDecoratorToStatic config typeChecker diagnostics cmpNode
                         newMembers componentDecorator)
          = withoutClassDecorators cmpNode) as Hnode.
  { unfold componentDecoratorToStatic.
    destruct (mjoin _) as [componentOptions|]; [|done].
    destruct (validateComponent _ _ _ _ _ _) as [[[]|e] diagnostics']; try done.
    by destruct (synthesize _ _ _). }
  split; [done|]. split; [|split].
  - rewrite Hnode. unfold withoutClassDecorators. cbn [decorators].
    rewrite Hremove. unfold Stencil.removeDecorators.
    destruct (decorators cmpNode) as [before|]; [|done].
    destruct (List.filter _ before) as [|d updated] eqn:Hfilter; [done|].
    intros remaining [= <-] Hmember. rewrite <- Hfilter in Hmember.
    apply list_elem_of_In, filter_In in Hmember as [_ Hkept].
    rewrite Hname in Hkept. by rewrite bool_decide_true in Hkept.
  - intros componentOptions Hopts. unfold componentDecoratorToStatic. rewrite Hopts.
    destruct (validateComponent _ _ _ _ _ _) as [[[]|e] diagnostics']; try done.
    by destruct (synthesize _ _ _).
  - intros Hopts. unfold componentDecoratorToStatic. by rewrite Hopts.
Qed.

End Claims.

(** ** The claims on concrete inputs *)

(** C5. The pass does not always terminate normally.  In a module that also
    has [export const VERSION = 1], the value declaration of the exported
    symbol has no modifiers, reading its first modifier throws, and the pass
    ends with that exception after it has pushed a diagnostic. *)
Theorem pass_throws_on_export_without_modifiers :
  completion (Example.run Example.build Example.options Example.cmpNode
                [Example.classSymbol; Example.constSymbol]) = Thrown TypeError
  ∧ out_diagnostics (Example.run Example.build Example.options Example.cmpNode
                       [Example.classSymbol; Example.constSymbol])
    = [error Message.exports None].
Proof. split; vm_compute; reflexivity. Qed.

(** C4. The single-export check does not diagnose every offending export.
    With the two offending exports [export const VERSION = 1] and
    [export const BUILD = 2] the validator throws at the first one: it returns
    no verdict and leaves one diagnostic, bound to no node. *)
Theorem single_export_check_stops_at_first_export :
  filter (offending Example.cmpNode)
    [Example.classSymbol; Example.constSymbol; Example.otherConstSymbol]
  = [Example.constSymbol; Example.otherConstSymbol]
  ∧ validateComponent (H := Example.imports Example.options) Example.build
      (Example.exporting
         [Example.classSymbol; Example.constSymbol; Example.otherConstSymbol])
      Example.options Example.cmpNode Example.componentDecorator []
    = (Thrown TypeError, [error Message.exports None]).
Proof. split; vm_compute; reflexivity. Qed.

(** C1, as stated, fails: with [styleUrls: ['b.scss']] and
    [styleUrl: 'a.scss'] the configuration passes validation and the
    default-mode list is not [['a.scss'; 'b.scss']], the [styleUrl] entry
    first. *)
Lemma styleUrl_first_counterexample :
  styleUrls Example.options_list = Some (UrlsArray ["b.scss"])
  ∧ styleUrl Example.options_list = Some "a.scss"
  ∧ (validateComponent (H := Example.imports Example.options_list) Example.build
       (Example.exporting [Example.classSymbol]) Example.options_list
       (withoutClassDecorators (H := Example.imports Example.options_list) Example.cmpNode)
       Example.componentDecorator []).1 = Normal true
  ∧ modeStyleUrls "$" Example.options_list !! "$" = Some ["b.scss"; "a.scss"]
  ∧ createStaticGetter "originalStyleUrls" (LitModeStyles {[ "$" := ["a.scss"; "b.scss"] ]})
    ∉ out_newMembers (Example.run Example.build Example.options_list Example.cmpNode
                        [Example.classSymbol]).
Proof.
  repeat split; try (vm_compute; reflexivity).
  apply (bool_decide_eq_false_1 (_ ∈ _)). vm_compute. reflexivity.
Qed.

(** C6, as stated, fails: on a class with an extends clause the one
    diagnostic of a configuration with [shadow] and [scoped] both true is
    bound to the extends clause, not to the [scoped] argument. *)
Lemma shadow_and_scoped_extends_counterexample :
  shadow Example.options_shadow_scoped = true
  ∧ scoped Example.options_shadow_scoped = true
  ∧ ¬ ∃ d,
      out_diagnostics (Example.run Example.build Example.options_shadow_scoped
                         Example.cmpNode_extends [Example.classSymbol]) = [] ++ [d]
      ∧ out_newMembers (Example.run Example.build Example.options_shadow_scoped
                          Example.cmpNode_extends [Example.classSymbol]) = []
      ∧ node d = Some (default (decorator_node Example.componentDecorator)
                         (argumentNode "scoped" Example.componentDecorator)).
Proof.
  split; [reflexivity|]. split; [reflexivity|].
  intros (d & Hdiagnostics & _ & Hnode).
  vm_compute in Hdiagnostics. injection Hdiagnostics as <-.
  vm_compute in Hnode. discriminate Hnode.
Qed.

(** C9, as stated, fails: on a class with an extends clause validation
    fails, and the annotation has all the same been removed from the
    annotation list of the class. *)
Lemma decorators_removed_on_failure_counterexample :
  (validateComponent (H := Example.imports Example.options) Example.build
     (Example.exporting [Example.classSymbol]) Example.options
     (withoutClassDecorators (H := Example.imports Example.options) Example.cmpNode_extends)
     Example.componentDecorator []).1 = Normal false
  ∧ out_newMembers (Example.run Example.build Example.options Example.cmpNode_extends
                      [Example.classSymbol]) = []
  ∧ decorators Example.cmpNode_extends = Some [Example.componentDecorator]
  ∧ decorators (out_cmpNode (Example.run Example.build Example.options
                               Example.cmpNode_extends [Example.classSymbol])) = None.
Proof. repeat split; vm_compute; reflexivity. Qed.

(** ** The properties at concrete inputs *)

Lemma extends_clause_fails_validation_witness :
  heritageClauses Example.cmpNode_extends
  = Some [{| token := ExtendsKeyword; heritage_node := 20 |};
          {| token := ImplementsKeyword; heritage_node := 21 |}]
  ∧ (∃ c, c ∈ [{| token := ExtendsKeyword; heritage_node := 20 |};
               {| token := ImplementsKeyword; heritage_node := 21 |}]
          ∧ token c = ExtendsKeyword)
  ∧ ∃ c, c ∈ [{| token := ExtendsKeyword; heritage_node := 20 |};
              {| token := ImplementsKeyword; heritage_node := 21 |}]
      ∧ token c = ExtendsKeyword
      ∧ validateComponent (H := Example.imports Example.options_shadow_scoped)
          Example.build (Example.exporting [Example.classSymbol])
          Example.options_shadow_scoped Example.cmpNode_extends
          Example.componentDecorator []
        = (Normal false, [] ++ [error Message.extends (Some (heritage_node c))]).
Proof.
  assert (∃ c, c ∈ [{| token := ExtendsKeyword; heritage_node := 20 |};
                    {| token := ImplementsKeyword; heritage_node := 21 |}]
               ∧ token c = ExtendsKeyword) as Hextends.
  { exists {| token := ExtendsKeyword; heritage_node := 20 |}.
    split; [apply list_elem_of_here|reflexivity]. }
  split; [reflexivity|]. split; [exact Hextends|].
  exact (extends_clause_fails_validation (H := Example.imports Example.options_shadow_scoped)
           Example.build (Example.exporting [Example.classSymbol])
           Example.options_shadow_scoped Example.cmpNode_extends
           Example.componentDecorator [] _ eq_refl Hextends).
Defined.

Lemma shadow_and_scoped_one_diagnostic_witness :
  mjoin (head (getDeclarationParameters (H := Example.imports Example.options_shadow_scoped)
                 Example.componentDecorator)) = Some Example.options_shadow_scoped
  ∧ shadow Example.options_shadow_scoped = true
  ∧ scoped Example.options_shadow_scoped = true
  ∧ ∃ d,
      out_diagnostics (Example.run Example.build Example.options_shadow_scoped
                         Example.cmpNode [Example.classSymbol]) = [] ++ [d]
      ∧ out_newMembers (Example.run Example.build Example.options_shadow_scoped
                          Example.cmpNode [Example.classSymbol]) = []
      ∧ level d = "error"
      ∧ node d = Some 13.
Proof.
  split; [reflexivity|]. split; [reflexivity|]. split; [reflexivity|].
  exact (shadow_and_scoped_one_diagnostic (H := Example.imports Example.options_shadow_scoped)
           Example.build (Example.exporting [Example.classSymbol]) [] Example.cmpNode []
           Example.componentDecorator Example.options_shadow_scoped
           eq_refl eq_refl eq_refl).
Defined.

Lemma synthesized_members_in_order_witness :
  mjoin (head (getDeclarationParameters (H := Example.imports Example.options_full)
                 Example.componentDecorator)) = Some Example.options_full
  ∧ (validateComponent (H := Example.imports Example.options_full) Example.build
       (Example.exporting [Example.classSymbol; Example.interfaceSymbol])
       Example.options_full
       (withoutClassDecorators (H := Example.imports Example.options_full) Example.cmpNode)
       Example.componentDecorator []).1 = Normal true
  ∧ out_newMembers (Example.run Example.build Example.options_full Example.cmpNode
                      [Example.classSymbol; Example.interfaceSymbol])
    = [createStaticGetter "is" (LitString "my-cmp");
       createStaticGetter "encapsulation" (LitString "shadow");
       createStaticGetter "originalStyleUrls" (LitModeStyles {[ "$" := ["a.scss"] ]});
       createStaticGetter "styleUrls" (LitModeStyles {[ "$" := ["a.css"] ]});
       createStaticGetter "assetsDirs" (LitArray ["fonts"; "img"]);
       createStaticGetter "styles" (LitString ":host {}")].
Proof.
  assert ((validateComponent (H := Example.imports Example.options_full) Example.build
             (Example.exporting [Example.classSymbol; Example.interfaceSymbol])
             Example.options_full
             (withoutClassDecorators (H := Example.imports Example.options_full)
                Example.cmpNode)
             Example.componentDecorator []).1 = Normal true) as Hvalid
    by (vm_compute; reflexivity).
  split; [reflexivity|]. split; [exact Hvalid|].
  destruct (proj1 (synthesized_members_in_order (H := Example.imports Example.options_full)
                     Example.build
                     (Example.exporting [Example.classSymbol; Example.interfaceSymbol])
                     [] Example.cmpNode [] Example.componentDecorator Example.options_full
                     eq_refl) Hvalid) as (text & Htag & Hmembers).
  injection Htag as <-. unfold Example.run. rewrite Hmembers.
  vm_compute. reflexivity.
Defined.

Lemma styleUrls_list_precedes_styleUrl_witness :
  mjoin (head (getDeclarationParameters (H := Example.imports Example.options_list)
                 Example.componentDecorator)) = Some Example.options_list
  ∧ styleUrls Example.options_list = Some (UrlsArray ["b.scss"])
  ∧ styleUrl Example.options_list = Some "a.scss"
  ∧ JS.truthy "a.scss" = true
  ∧ (validateComponent (H := Example.imports Example.options_list) Example.build
       (Example.exporting [Example.classSymbol]) Example.options_list
       (withoutClassDecorators (H := Example.imports Example.options_list) Example.cmpNode)
       Example.componentDecorator []).1 = Normal true
  ∧ modeStyleUrls "$" Example.options_list = {[ "$" := ["b.scss"] ++ ["a.scss"] ]}
  ∧ createStaticGetter "originalStyleUrls"
      (LitModeStyles {[ "$" := ["b.scss"] ++ ["a.scss"] ]})
    ∈ out_newMembers (Example.run Example.build Example.options_list Example.cmpNode
                        [Example.classSymbol]).
Proof.
  assert ((validateComponent (H := Example.imports Example.options_list) Example.build
             (Example.exporting [Example.classSymbol]) Example.options_list
             (withoutClassDecorators (H := Example.imports Example.options_list)
                Example.cmpNode)
             Example.componentDecorator []).1 = Normal true) as Hvalid
    by (vm_compute; reflexivity).
  split; [reflexivity|]. split; [reflexivity|]. split; [reflexivity|].
  split; [reflexivity|]. split; [exact Hvalid|].
  exact (styleUrls_list_precedes_styleUrl (H := Example.imports Example.options_list)
           Example.build (Example.exporting [Example.classSymbol]) [] Example.cmpNode []
           Example.componentDecorator Example.options_list ["b.scss"] "a.scss"
           eq_refl eq_refl eq_refl eq_refl Hvalid).
Defined.

Lemma per_mode_map_normalization_witness :
  styleUrls Example.options_modes = Some (UrlsModes Example.modes)
  ∧ styleUrl Example.options_modes = Some "a.scss"
  ∧ "$" ≠ "ios" ∧ "$" ≠ "md"
  ∧ modeStyleUrls "$" Example.options_modes
    = {[ "ios" := ["b.scss"]; "md" := ["c.scss"; "d.scss"]; "$" := ["a.scss"] ]}.
Proof.
  split; [reflexivity|]. split; [reflexivity|].
  split; [discriminate|]. split; [discriminate|].
  apply (proj2 (per_mode_map_normalization "$" Example.options_modes Example.modes eq_refl));
    [reflexivity | reflexivity | discriminate | discriminate].
Defined.

Lemma default_mode_key_in_map_witness :
  mjoin (head (getDeclarationParameters (H := Example.imports Example.options_default_mode)
                 Example.componentDecorator)) = Some Example.options_default_mode
  ∧ styleUrls Example.options_default_mode
    = Some (UrlsModes {[ "$" := StyleString "z.scss"; "ios" := StyleString "b.scss" ]})
  ∧ ({[ "$" := StyleString "z.scss"; "ios" := StyleString "b.scss" ]} : gmap string Style)
      !! "$" = Some (StyleString "z.scss")
  ∧ (validateComponent (H := Example.imports Example.options_default_mode) Example.build
       (Example.exporting [Example.classSymbol]) Example.options_default_mode
       (withoutClassDecorators (H := Example.imports Example.options_default_mode)
          Example.cmpNode)
       Example.componentDecorator []).1 = Normal true
  ∧ modeStyleUrls "$" Example.options_default_mode
    = {[ "$" := ["z.scss"; "a.scss"]; "ios" := ["b.scss"] ]}
  ∧ createStaticGetter "originalStyleUrls"
      (LitModeStyles {[ "$" := ["z.scss"; "a.scss"]; "ios" := ["b.scss"] ]})
    ∈ out_newMembers (Example.run Example.build Example.options_default_mode
                        Example.cmpNode [Example.classSymbol])
  ∧ createStaticGetter "styleUrls"
      (LitModeStyles {[ "$" := ["z.css"; "a.css"]; "ios" := ["b.css"] ]})
    ∈ out_newMembers (Example.run Example.build Example.options_default_mode
                        Example.cmpNode [Example.classSymbol]).
Proof.
  assert ((validateComponent (H := Example.imports Example.options_default_mode)
             Example.build (Example.exporting [Example.classSymbol])
             Example.options_default_mode
             (withoutClassDecorators (H := Example.imports Example.options_default_mode)
                Example.cmpNode)
             Example.componentDecorator []).1 = Normal true) as Hvalid
    by (vm_compute; reflexivity).
  split; [reflexivity|]. split; [reflexivity|]. split; [reflexivity|].
  split; [exact Hvalid|].
  destruct (default_mode_key_in_map (H := Example.imports Example.options_default_mode)
              Example.build (Example.exporting [Example.classSymbol]) []
              Example.cmpNode [] Example.componentDecorator
              Example.options_default_mode
              {[ "$" := StyleString "z.scss"; "ios" := StyleString "b.scss" ]}
              (StyleString "z.scss") eq_refl eq_refl eq_refl Hvalid)
    as (Hmap & Horiginal & Hcompiled).
  split; [|split].
  - etransitivity; [exact Hmap|]. vm_compute. reflexivity.
  - replace ({[ "$" := ["z.scss"; "a.scss"]; "ios" := ["b.scss"] ]}
             : gmap string (list string))
      with (<[ "$" := ["z.scss"] ++ ["a.scss"] ]>
              (style_list <$> ({[ "$" := StyleString "z.scss";
                                  "ios" := StyleString "b.scss" ]} : gmap string Style)))
      by (vm_compute; reflexivity).
    exact Horiginal.
  - replace ({[ "$" := ["z.css"; "a.css"]; "ios" := ["b.css"] ]}
             : gmap string (list string))
      with (fmap (M := list) (css_path Example.build)
              <$> <[ "$" := ["z.scss"] ++ ["a.scss"] ]>
                    (style_list <$> ({[ "$" := StyleString "z.scss";
                                        "ios" := StyleString "b.scss" ]}
                                     : gmap string Style)))
      by (vm_compute; reflexivity).
    exact Hcompiled.
Defined.

Lemma compiled_styleUrls_use_css_witness :
  mjoin (head (getDeclarationParameters (H := Example.imports Example.options_styleUrl)
                 Example.componentDecorator)) = Some Example.options_styleUrl
  ∧ (validateComponent (H := Example.imports Example.options_styleUrl) Example.build
       (Example.exporting [Example.classSymbol]) Example.options_styleUrl
       (withoutClassDecorators (H := Example.imports Example.options_styleUrl)
          Example.cmpNode)
       Example.componentDecorator []).1 = Normal true
  ∧ Posix.dirname "a.scss" = "."
  ∧ Posix.extname "a.scss" = ".scss"
  ∧ Posix.basename "a.scss" ".scss" = "a"
  ∧ Posix.join "." "a.css" = "a.css"
  ∧ createStaticGetter "originalStyleUrls" (LitModeStyles {[ "$" := ["a.scss"] ]})
    ∈ out_newMembers (Example.run Example.build Example.options_styleUrl Example.cmpNode
                        [Example.classSymbol])
  ∧ createStaticGetter "styleUrls" (LitModeStyles {[ "$" := ["a.css"] ]})
    ∈ out_newMembers (Example.run Example.build Example.options_styleUrl Example.cmpNode
                        [Example.classSymbol]).
Proof.
  assert ((validateComponent (H := Example.imports Example.options_styleUrl) Example.build
             (Example.exporting [Example.classSymbol]) Example.options_styleUrl
             (withoutClassDecorators (H := Example.imports Example.options_styleUrl)
                Example.cmpNode)
             Example.componentDecorator []).1 = Normal true) as Hvalid
    by (vm_compute; reflexivity).
  split; [reflexivity|]. split; [exact Hvalid|].
  split; [reflexivity|]. split; [reflexivity|]. split; [reflexivity|].
  split; [reflexivity|].
  exact (proj2 (proj2 (proj2
           (compiled_styleUrls_use_css (H := Example.imports Example.options_styleUrl)
              Example.build (Example.exporting [Example.classSymbol]) [] Example.cmpNode []
              Example.componentDecorator Example.options_styleUrl eq_refl Hvalid)))
           eq_refl eq_refl eq_refl eq_refl eq_refl eq_refl).
Defined.

Lemma decorators_removed_first_witness :
  removeDecorators (Imports := Example.imports Example.options) = Stencil.removeDecorators
  ∧ Stencil.decorator_name Example.componentDecorator = Some "Component"
  ∧ "Component" ∈ CLASS_DECORATORS_TO_REMOVE (Imports := Example.imports Example.options)
  ∧ out_cmpNode (Example.run Example.build Example.options Example.cmpNode_extends
                   [Example.classSymbol])
    = withoutClassDecorators (H := Example.imports Example.options) Example.cmpNode_extends.
Proof.
  assert ("Component" ∈ CLASS_DECORATORS_TO_REMOVE (Imports := Example.imports Example.options))
    as Hin by apply list_elem_of_here.
  split; [reflexivity|]. split; [reflexivity|]. split; [exact Hin|].
  exact (proj1 (decorators_removed_first (H := Example.imports Example.options)
                  Example.build (Example.exporting [Example.classSymbol]) []
                  Example.cmpNode_extends [] Example.componentDecorator "Component"
                  eq_refl eq_refl Hin)).
Defined.

(** * Further properties of the pass *)

(** ** The style path normalizer *)

(** X1. Normalizing a per-mode map a second time changes nothing: the lists
    [normalizeStyleUrls] produces are kept as they are when they are given
    back as the values of a per-mode map. *)
Theorem normalizeStyleUrls_idempotent (m : gmap string Style) :
  normalizeStyleUrls (StyleArray <$> normalizeStyleUrls m) = normalizeStyleUrls m.
Proof.
  rewrite !normalizeStyleUrls_fmap. apply map_eq. intros mode.
  rewrite !lookup_fmap. by destruct (m !! mode).
Qed.

(** X2. Both key loops keep the modes: the normalized map and the compiled
    map have the keys of the map they were made from, also the keys whose
    list is empty, and the compiled map has as many paths under each mode as
    the original. *)
Theorem normalizers_keep_modes config (styles0 : gmap string Style)
    (original : gmap string (list string)) :
  dom (normalizeStyleUrls styles0) = dom styles0
  ∧ dom (normalizeExtension config original) = dom original
  ∧ ∀ mode, length <$> normalizeExtension config original !! mode
            = length <$> original !! mode.
Proof.
  split; [|split].
  - apply set_eq. intros mode.
    by rewrite !elem_of_dom, normalizeStyleUrls_lookup, fmap_is_Some.
  - apply set_eq. intros mode.
    by rewrite !elem_of_dom, normalizeExtension_lookup, fmap_is_Some.
  - intros mode. rewrite normalizeExtension_lookup.
    destruct (original !! mode) as [paths|]; [|done].
    cbn. by rewrite length_fmap.
Qed.

(** X3. The key loops commute with setting one mode: the result for a map
    with one mode replaced is the result for the map, with that mode's entry
    replaced by its own result; so the outcome does not depend on the order
    in which [Object.keys] lists the modes.  An empty map gives an empty
    map. *)
Theorem normalizers_insert config (styles0 : gmap string Style)
    (original : gmap string (list string)) mode (style : Style) (paths : list string) :
  normalizeStyleUrls (<[mode := style]> styles0)
  = <[mode := normalizeStyle (Some style)]> (normalizeStyleUrls styles0)
  ∧ normalizeExtension config (<[mode := paths]> original)
    = <[mode := useCss config <$> paths]> (normalizeExtension config original)
  ∧ normalizeStyleUrls ∅ = ∅
  ∧ normalizeExtension config ∅ = ∅.
Proof.
  rewrite !normalizeStyleUrls_fmap, !normalizeExtension_fmap.
  by rewrite !fmap_insert, !fmap_empty.
Qed.

(** X4. The default-mode list is the contribution of [styleUrls] (the flat
    list, or the normalized entry of the per-mode map under the default-mode
    key) followed by the [styleUrl] entry: the [styleUrl] entry always comes
    last, and a [styleUrl] that is the empty string contributes nothing. *)
Theorem defaultModeStyles_order (defaultMode : string) componentOptions :
  defaultModeStyles defaultMode componentOptions
  = match styleUrls componentOptions with
    | Some (UrlsArray l) => l
    | Some (UrlsModes m) => normalizeStyle (m !! defaultMode)
    | None => []
    end ++ match styleUrl componentOptions with
           | Some "" | None => []
           | Some s => [s]
           end.
Proof.
  unfold defaultModeStyles.
  destruct (styleUrls componentOptions) as [[l|m]|];
    destruct (styleUrl componentOptions) as [[|c s]|];
    cbn [JS.truthy normalizeStyle app]; by rewrite ?app_nil_r.
Qed.

(** X5. The normalized style map is empty exactly when the default-mode list
    is empty and there is no per-mode map with a key: a per-mode map keeps
    each of its keys, even when all its lists are empty. *)
Theorem modeStyleUrls_empty (defaultMode : string) componentOptions :
  modeStyleUrls defaultMode componentOptions = ∅
  ↔ defaultModeStyles defaultMode componentOptions = []
    ∧ ∀ m, styleUrls componentOptions = Some (UrlsModes m) → m = ∅.
Proof.
  unfold modeStyleUrls.
  destruct (defaultModeStyles defaultMode componentOptions) as [|s l] eqn:Hdefault;
    cbn [length Nat.ltb Nat.leb].
  - split.
    + intros Hempty. split; [done|]. intros m Hm. rewrite Hm in Hempty.
      rewrite normalizeStyleUrls_fmap in Hempty. by apply fmap_empty_inv in Hempty.
    + intros [_ Hm]. destruct (styleUrls componentOptions) as [[l|m]|]; try done.
      rewrite (Hm m eq_refl). by rewrite normalizeStyleUrls_fmap, fmap_empty.
  - split; [|by intros [? _]].
    intros Hempty. by apply insert_non_empty in Hempty.
Qed.

(** X6. Without a per-mode map the normalized style map is either empty or
    holds the default-mode key alone, with a list that is not empty. *)
Theorem modeStyleUrls_without_modes (defaultMode : string) componentOptions :
  (∀ m, styleUrls componentOptions ≠ Some (UrlsModes m)) →
  modeStyleUrls defaultMode componentOptions = ∅
  ∨ ∃ s l, modeStyleUrls defaultMode componentOptions = {[ defaultMode := s :: l ]}.
Proof.
  intros Hflat. unfold modeStyleUrls.
  assert (match styleUrls componentOptions with
          | Some (UrlsModes m) => normalizeStyleUrls m
          | _ => ∅
          end = (∅ : gmap string (list string))) as ->.
  { destruct (styleUrls componentOptions) as [[l|m]|]; try done. by destruct (Hflat m). }
  destruct (defaultModeStyles defaultMode componentOptions) as [|s l]; [by left|].
  right. by exists s, l.
Qed.

Lemma modeStyleUrls_without_modes_witness :
  (∀ m, styleUrls Example.options_list ≠ Some (UrlsModes m))
  ∧ (modeStyleUrls "$" Example.options_list = ∅
     ∨ ∃ s l, modeStyleUrls "$" Example.options_list = {[ "$" := s :: l ]}).
Proof.
  assert (∀ m, styleUrls Example.options_list ≠ Some (UrlsModes m)) as Hflat
    by (intros m; discriminate).
  split; [exact Hflat|].
  exact (modeStyleUrls_without_modes "$" Example.options_list Hflat).
Defined.

(** ** The validator, case by case *)
Section ValidatorCases.

Context `{Imports}.

Lemma findTagNode_cases propName decorator :
  (∃ tagNode, findTagNode propName decorator = Normal tagNode)
  ∨ (findTagNode propName decorator = Thrown TypeError
     ∧ ∃ callee, expression decorator = CallExpression callee []).
Proof.
  unfold findTagNode.
  destruct (expression decorator) as [callee [|[properties|] arguments]|];
    cbn [head]; eauto.
Qed.

Lemma nonTypeExports_cases typeChecker cmpNode :
  (getSymbolAtLocation typeChecker (sourceFile cmpNode) = None
   ∧ nonTypeExports typeChecker cmpNode = Thrown TypeError)
  ∨ (is_Some (getSymbolAtLocation typeChecker (sourceFile cmpNode))
     ∧ nonTypeExports typeChecker cmpNode
       = Normal (filter (offending cmpNode) (moduleExports typeChecker cmpNode)))
  ∨ (is_Some (getSymbolAtLocation typeChecker (sourceFile cmpNode))
     ∧ nonTypeExports typeChecker cmpNode = Thrown TypeError
     ∧ name cmpNode = None
     ∧ filter (offending cmpNode) (moduleExports typeChecker cmpNode) ≠ []).
Proof.
  destruct (getSymbolAtLocation typeChecker (sourceFile cmpNode)) as [moduleSymbol|]
    eqn:Hmodule.
  2:{ left. split; [done|]. unfold nonTypeExports. by rewrite Hmodule. }
  right. destruct (name cmpNode) as [text|] eqn:Hname.
  { left. split; [done|]. by apply (nonTypeExports_offending _ _ text moduleSymbol). }
  assert (filter (offending cmpNode) (moduleExports typeChecker cmpNode)
          = nonTypeSymbols (getExportsOfModule typeChecker moduleSymbol)) as ->.
  { unfold moduleExports. rewrite Hmodule.
    rewrite nonTypeSymbols_filter. apply list_filter_iff. intros symbol.
    unfold offending. rewrite Hname.
    split; [intros (? & ? & _); by split|intros [? ?]; by repeat split]. }
  unfold nonTypeExports. rewrite Hmodule, Hname.
  destruct (nonTypeSymbols _); [left|right]; by repeat split.
Qed.

Lemma reportExport_cases symbol diagnostics :
  (errorNode_defined symbol
   ∧ reportExport symbol diagnostics = (Normal (), diagnostics ++ [exportError symbol]))
  ∨ (¬ errorNode_defined symbol
     ∧ reportExport symbol diagnostics
       = (Thrown TypeError, diagnostics ++ [error Message.exports None])).
Proof.
  destruct (valueDeclaration symbol) as [declaration|] eqn:Hdeclaration.
  - destruct (modifiers declaration) as [modifiers|] eqn:Hmodifiers.
    + left. assert (errorNode_defined symbol) as Hdef
        by (intros d Hd; rewrite Hdeclaration in Hd; injection Hd as <-; eauto).
      split; [done|]. by apply reportExport_defined.
    + right. split.
      * intros Hdef. destruct (Hdef declaration Hdeclaration) as [? ?]. congruence.
      * unfold reportExport, errorNode. rewrite Hdeclaration, Hmodifiers. by run_eff.
  - left. assert (errorNode_defined symbol) as Hdef
      by (intros d Hd; congruence).
    split; [done|]. by apply reportExport_defined.
Qed.

Lemma forEach_reportExport_cases symbols diagnostics :
  (Forall errorNode_defined symbols
   ∧ forEach symbols reportExport diagnostics
     = (Normal (), diagnostics ++ (exportError <$> symbols)))
  ∨ (∃ reported symbol rest,
       symbols = reported ++ symbol :: rest
       ∧ Forall errorNode_defined reported
       ∧ ¬ errorNode_defined symbol
       ∧ forEach symbols reportExport diagnostics
         = (Thrown TypeError,
            diagnostics ++ (exportError <$> reported) ++ [error Message.exports None])).
Proof.
  revert diagnostics. induction symbols as [|symbol symbols IH]; intros diagnostics.
  { left. split; [done|]. by rewrite app_nil_r. }
  cbn [forEach]. unfold mbind, Eff_bind.
  destruct (reportExport_cases symbol diagnostics) as [[Hdef ->]|[Hundef ->]].
  - destruct (IH (diagnostics ++ [exportError symbol]))
      as [[Hall ->]|(reported & culprit & rest & -> & Hall & Hundef & ->)].
    + left. split; [by constructor|]. by rewrite <- app_assoc.
    + right. exists (symbol :: reported), culprit, rest.
      split; [done|]. split; [by constructor|]. split; [done|].
      by rewrite <- app_assoc.
  - right. by exists [], symbol, symbols.
Qed.

(** Every way a validation can end, with the diagnostics it leaves. *)
Lemma validateComponent_cases config typeChecker componentOptions cmpNode
    componentDecorator diagnostics :
  (∃ d, validateComponent config typeChecker componentOptions cmpNode componentDecorator
          diagnostics = (Normal false, diagnostics ++ [d])
        ∧ level d = "error")
  ∨ (∃ d callee,
       validateComponent config typeChecker componentOptions cmpNode componentDecorator
         diagnostics = (Thrown TypeError, diagnostics ++ [d])
       ∧ level d = "error"
       ∧ expression componentDecorator = CallExpression callee [])
  ∨ (earlier_checks_pass componentOptions cmpNode componentDecorator
     ∧ _isTesting config = true
     ∧ validateComponent config typeChecker componentOptions cmpNode componentDecorator
         diagnostics = (Normal true, diagnostics))
  ∨ (earlier_checks_pass componentOptions cmpNode componentDecorator
     ∧ _isTesting config = false
     ∧ getSymbolAtLocation typeChecker (sourceFile cmpNode) = None
     ∧ validateComponent config typeChecker componentOptions cmpNode componentDecorator
         diagnostics = (Thrown TypeError, diagnostics))
  ∨ (earlier_checks_pass componentOptions cmpNode componentDecorator
     ∧ _isTesting config = false
     ∧ is_Some (getSymbolAtLocation typeChecker (sourceFile cmpNode))
     ∧ name cmpNode = None
     ∧ filter (offending cmpNode) (moduleExports typeChecker cmpNode) ≠ []
     ∧ validateComponent config typeChecker componentOptions cmpNode componentDecorator
         diagnostics = (Thrown TypeError, diagnostics))
  ∨ (earlier_checks_pass componentOptions cmpNode componentDecorator
     ∧ _isTesting config = false
     ∧ is_Some (getSymbolAtLocation typeChecker (sourceFile cmpNode))
     ∧ Forall errorNode_defined
         (filter (offending cmpNode) (moduleExports typeChecker cmpNode))
     ∧ validateComponent config typeChecker componentOptions cmpNode componentDecorator
         diagnostics
       = (Normal (bool_decide
                    (filter (offending cmpNode) (moduleExports typeChecker cmpNode) = [])),
          diagnostics
            ++ (exportError
                  <$> filter (offending cmpNode) (moduleExports typeChecker cmpNode))))
  ∨ (earlier_checks_pass componentOptions cmpNode componentDecorator
     ∧ _isTesting config = false
     ∧ is_Some (getSymbolAtLocation typeChecker (sourceFile cmpNode))
     ∧ ∃ reported symbol rest,
         filter (offending cmpNode) (moduleExports typeChecker cmpNode)
         = reported ++ symbol :: rest
         ∧ Forall errorNode_defined reported
         ∧ ¬ errorNode_defined symbol
         ∧ validateComponent config typeChecker componentOptions cmpNode
             componentDecorator diagnostics
           = (Thrown TypeError,
              diagnostics ++ (exportError <$> reported) ++ [error Message.exports None])).
Proof.
  unfold validateComponent.
  destruct (extendNode cmpNode) as [c|] eqn:Hext.
  { left. run_eff. by eexists. }
  destruct (shadow componentOptions && scoped componentOptions) eqn:Henc.
  { run_eff.
    destruct (findTagNode_cases "scoped" componentDecorator)
      as [[tagNode ->]|[-> [callee Hcall]]]; run_eff;
      [left|right; left]; by repeat eexists. }
  destruct (otherDecorator cmpNode componentDecorator) as [other|] eqn:Hdec.
  { left. run_eff. by eexists. }
  destruct (tag componentOptions) as [text|] eqn:Htag;
    [|left; run_eff; by eexists].
  destruct (String.length (JS.trim text) =? 0)%nat eqn:Hlen;
    [left; run_eff; by eexists|].
  assert (JS.trim text ≠ "") as Htrim by (intros Heq; by rewrite Heq in Hlen).
  destruct (validateComponentTag text) as [[|c e]|] eqn:Herr.
  2:{ run_eff.
      destruct (findTagNode_cases "tag" componentDecorator)
        as [[tagNode ->]|[-> [callee Hcall]]]; run_eff;
        [left|right; left]; by repeat eexists. }
  all: assert (earlier_checks_pass componentOptions cmpNode componentDecorator) as Hearlier
    by (repeat split; try done; exists text; by rewrite Herr).
  all: destruct (_isTesting config) eqn:Htest; cbn [negb];
    [right; right; left; by split|].
  all: right; right; right.
  all: unfold mbind, Eff_bind, lift.
  all: destruct (nonTypeExports_cases typeChecker cmpNode)
    as [[Hmodule ->]|[[Hmodule ->]|(Hmodule & -> & Hname & Hne)]];
    [left; by split| |right; left; by split].
  all: right; right.
  all: destruct (forEach_reportExport_cases
                   (filter (offending cmpNode) (moduleExports typeChecker cmpNode))
                   diagnostics)
    as [[Hall ->]|(reported & symbol & rest & Heq & Hall & Hundef & ->)].
  all: try (left; split; [exact Hearlier|]; split; [done|]; split; [done|];
            split; [done|]; by destruct (filter _ _); rewrite ?app_nil_r).
  all: right; split; [exact Hearlier|]; split; [done|]; split; [done|];
    by exists reported, symbol, rest.
Qed.

End ValidatorCases.

(** ** The validator and the pass *)
Section FurtherProperties.

Context `{Imports}.

Lemma validateComponent_added config typeChecker componentOptions cmpNode
    componentDecorator diagnostics :
  ∃ added,
    (validateComponent config typeChecker componentOptions cmpNode componentDecorator
       diagnostics).2 = diagnostics ++ added
    ∧ Forall (λ d, level d = "error") added
    ∧ ((validateComponent config typeChecker componentOptions cmpNode componentDecorator
          diagnostics).1 = Normal true → added = [])
    ∧ ((validateComponent config typeChecker componentOptions cmpNode componentDecorator
          diagnostics).1 = Normal false → added ≠ []).
Proof.
  assert (∀ symbols, Forall (λ d, level d = "error") (exportError <$> symbols)) as Hexports
    by (intros symbols; by apply Forall_fmap, Forall_true).
  destruct (validateComponent_cases config typeChecker componentOptions cmpNode
              componentDecorator diagnostics)
    as [(d & -> & Hd)|[(d & callee & -> & Hd & _)|[(_ & _ & ->)|[(_ & _ & _ & ->)
       |[(_ & _ & _ & _ & _ & ->)|[(_ & _ & _ & _ & ->)
       |(_ & _ & _ & reported & symbol & rest & _ & _ & _ & ->)]]]]]];
    cbn [fst snd].
  - exists [d]. repeat split; [by constructor|done|done].
  - exists [d]. repeat split; [by constructor|done|done].
  - exists []. by rewrite app_nil_r.
  - exists []. by rewrite app_nil_r.
  - exists []. by rewrite app_nil_r.
  - eexists. split; [done|]. split; [apply Hexports|].
    destruct (filter _ _); [done|]. rewrite bool_decide_false by done. by split.
  - eexists. split; [done|]. split; [|done].
    apply Forall_app. split; [apply Hexports|by constructor].
Qed.

(** X7. The pass only appends.  However it ends, normally or by an
    exception, with or without a configuration object, the diagnostics list
    it leaves is the one it was given followed by diagnostics of severity
    error, and the member list is the one it was given followed by new
    members. *)
Theorem pass_only_appends config typeChecker diagnostics cmpNode newMembers
    componentDecorator :
  ∃ added members,
    out_diagnostics (componentDecoratorToStatic config typeChecker diagnostics cmpNode
                       newMembers componentDecorator) = diagnostics ++ added
    ∧ Forall (λ d, level d = "error") added
    ∧ out_newMembers (componentDecoratorToStatic config typeChecker diagnostics cmpNode
                        newMembers componentDecorator) = newMembers ++ members.
Proof.
  unfold componentDecoratorToStatic.
  destruct (mjoin _) as [componentOptions|].
  2:{ exists [], []. by rewrite !app_nil_r. }
  destruct (validateComponent_added config typeChecker componentOptions
              (withoutClassDecorators cmpNode) componentDecorator diagnostics)
    as (added & Hadded & Herror & Htrue & _).
  destruct (validateComponent _ _ _ _ _ _) as [[[]|e] diagnostics'] eqn:Hvalidate;
    cbn [fst snd] in *; subst diagnostics'.
  - destruct (validateComponent_true config typeChecker componentOptions
                (withoutClassDecorators cmpNode) componentDecorator diagnostics)
      as (text & Htag & _); [by rewrite Hvalidate|].
    rewrite (synthesize_members _ _ _ _ Htag). cbn [out_diagnostics out_newMembers].
    by eexists _, _.
  - exists added, []. by rewrite app_nil_r.
  - exists added, []. by rewrite app_nil_r.
Qed.

(** X8. A validation that completes tells by its verdict whether it reported
    anything: it returns true only when it appended no diagnostic, and false
    only when it appended at least one. *)
Theorem validateComponent_verdict config typeChecker componentOptions cmpNode
    componentDecorator diagnostics :
  ((validateComponent config typeChecker componentOptions cmpNode componentDecorator
      diagnostics).1 = Normal true →
   (validateComponent config typeChecker componentOptions cmpNode componentDecorator
      diagnostics).2 = diagnostics)
  ∧ ((validateComponent config typeChecker componentOptions cmpNode componentDecorator
        diagnostics).1 = Normal false →
     (length diagnostics
      < length (validateComponent config typeChecker componentOptions cmpNode
                  componentDecorator diagnostics).2)%nat).
Proof.
  destruct (validateComponent_added config typeChecker componentOptions cmpNode
              componentDecorator diagnostics) as (added & -> & _ & Htrue & Hfalse).
  split.
  - intros Hvalid. rewrite (Htrue Hvalid). apply app_nil_r.
  - intros Hinvalid. rewrite length_app.
    destruct added; [by destruct (Hfalse Hinvalid)|]. cbn [length]. lia.
Qed.

(** X9. A validation that returns false has appended exactly one diagnostic,
    unless it is the single-export rule that failed: then all the earlier
    checks passed, the configuration is not in test mode, the source file is
    a module, and it appended one diagnostic for each offending export, in
    the order of the exports. *)
Theorem failed_validation_diagnostics config typeChecker componentOptions cmpNode
    componentDecorator diagnostics :
  (validateComponent config typeChecker componentOptions cmpNode componentDecorator
     diagnostics).1 = Normal false →
  (∃ d, (validateComponent config typeChecker componentOptions cmpNode componentDecorator
           diagnostics).2 = diagnostics ++ [d])
  ∨ (earlier_checks_pass componentOptions cmpNode componentDecorator
     ∧ _isTesting config = false
     ∧ is_Some (getSymbolAtLocation typeChecker (sourceFile cmpNode))
     ∧ filter (offending cmpNode) (moduleExports typeChecker cmpNode) ≠ []
     ∧ (validateComponent config typeChecker componentOptions cmpNode componentDecorator
          diagnostics).2
       = diagnostics
           ++ (exportError
                 <$> filter (offending cmpNode) (moduleExports typeChecker cmpNode))).
Proof.
  destruct (validateComponent_cases config typeChecker componentOptions cmpNode
              componentDecorator diagnostics)
    as [(d & -> & Hd)|[(d & callee & -> & _)|[(_ & _ & ->)|[(_ & _ & _ & ->)
       |[(_ & _ & _ & _ & _ & ->)|[(Hearlier & Htest & Hmodule & _ & ->)
       |(_ & _ & _ & reported & symbol & rest & _ & _ & _ & ->)]]]]]];
    cbn [fst snd]; try done.
  - intros _. left. by exists d.
  - intros Hfalse. right. split; [exact Hearlier|]. split; [done|]. split; [done|].
    split; [|done]. intros Hnil. by rewrite Hnil in Hfalse.
Qed.

(** X10. In test mode the validator never consults the type checker: two
    type checkers give the same verdict and the same diagnostics. *)
Theorem testing_ignores_typeChecker config typeChecker typeChecker' componentOptions
    cmpNode componentDecorator diagnostics :
  _isTesting config = true →
  validateComponent config typeChecker componentOptions cmpNode componentDecorator
    diagnostics
  = validateComponent config typeChecker' componentOptions cmpNode componentDecorator
      diagnostics.
Proof. intros Htest. unfold validateComponent. by rewrite Htest. Qed.

(** X11. In test mode the pass never throws: whatever the class, the
    annotation and the exports of the module, it completes normally. *)
Theorem testing_pass_completes config typeChecker diagnostics cmpNode newMembers
    componentDecorator :
  _isTesting config = true →
  completion (componentDecoratorToStatic config typeChecker diagnostics cmpNode
                newMembers componentDecorator) = Normal ().
Proof.
  intros Htest. unfold componentDecoratorToStatic.
  destruct (mjoin _) as [componentOptions|] eqn:Hopts; [|done].
  destruct (getDeclarationParameters_Some _ _ Hopts) as (callee & arg & args & Hexpr).
  destruct (validateComponent_cases config typeChecker componentOptions
              (withoutClassDecorators cmpNode) componentDecorator diagnostics)
    as [(d & -> & _)|[(d & callee' & _ & _ & Hcall)|[(Hearlier & _ & ->)
       |[(_ & Hbuild & _)|[(_ & Hbuild & _)|[(_ & Hbuild & _)|(_ & Hbuild & _)]]]]]];
    try congruence.
  - done.
  - destruct Hearlier as (_ & _ & _ & text & Htag & _).
    by rewrite (synthesize_members _ _ _ _ Htag).
Qed.

(** X12. The pass throws only in the single-export check.  When it ends with
    an exception, the exception is a [TypeError], the configuration is not in
    test mode, no member was appended, and either the source file of the
    class is not a module, or the class has no name while the module has an
    export that is not a type, or some offending export has a value
    declaration without modifiers. *)
Theorem pass_throws_only_in_export_check config typeChecker diagnostics cmpNode
    newMembers componentDecorator e :
  completion (componentDecoratorToStatic config typeChecker diagnostics cmpNode
                newMembers componentDecorator) = Thrown e →
  e = TypeError
  ∧ _isTesting config = false
  ∧ out_newMembers (componentDecoratorToStatic config typeChecker diagnostics cmpNode
                      newMembers componentDecorator) = newMembers
  ∧ (getSymbolAtLocation typeChecker (sourceFile cmpNode) = None
     ∨ (name cmpNode = None
        ∧ filter (offending cmpNode) (moduleExports typeChecker cmpNode) ≠ [])
     ∨ ∃ symbol declaration,
         symbol ∈ filter (offending cmpNode) (moduleExports typeChecker cmpNode)
         ∧ valueDeclaration symbol = Some declaration
         ∧ modifiers declaration = None).
Proof.
  unfold componentDecoratorToStatic.
  destruct (mjoin _) as [componentOptions|] eqn:Hopts; [|done].
  destruct (getDeclarationParameters_Some _ _ Hopts) as (callee & arg & args & Hexpr).
  destruct (validateComponent_cases config typeChecker componentOptions
              (withoutClassDecorators cmpNode) componentDecorator diagnostics)
    as [(d & -> & _)|[(d & callee' & _ & _ & Hcall)|[(Hearlier & _ & ->)
       |[(_ & Htest & Hmodule & ->)|[(_ & Htest & _ & Hname & Hne & ->)
       |[(Hearlier & _ & _ & _ & ->)
       |(_ & Htest & _ & reported & symbol & rest & Hoffenders & _ & Hundef & ->)]]]]]];
    try congruence.
  - done.
  - destruct Hearlier as (_ & _ & _ & text & Htag & _).
    by rewrite (synthesize_members _ _ _ _ Htag).
  - cbn [completion out_newMembers]. intros [= <-]. repeat split; try done.
    left. exact Hmodule.
  - cbn [completion out_newMembers]. intros [= <-]. repeat split; try done.
    right. left. split; [exact Hname|exact Hne].
  - destruct Hearlier as (_ & _ & _ & text & Htag & _).
    destruct (bool_decide _); [|done].
    by rewrite (synthesize_members _ _ _ _ Htag).
  - cbn [completion out_newMembers]. intros [= <-]. repeat split; try done.
    right. right.
    destruct (valueDeclaration symbol) as [declaration|] eqn:Hdeclaration.
    2:{ destruct Hundef. intros declaration Hd. congruence. }
    destruct (modifiers declaration) as [modifiers|] eqn:Hmodifiers.
    { destruct Hundef. intros d Hd. rewrite Hdeclaration in Hd.
      injection Hd as <-. eauto. }
    exists symbol, declaration. repeat split; try done.
    change (symbol ∈ filter (offending (withoutClassDecorators cmpNode))
                       (moduleExports typeChecker (withoutClassDecorators cmpNode))).
    rewrite Hoffenders. apply elem_of_app. right. apply list_elem_of_here.
Qed.

End FurtherProperties.

(** ** The single checks and the members *)
Section SingleChecks.

Context `{Imports}.

(** X13. The members the pass appends for a valid configuration are between
    one and six, they are static getters named [is], [encapsulation],
    [originalStyleUrls], [styleUrls], [assetsDirs] or [styles], and no two of
    them have the same name. *)
Theorem synthesized_member_names config typeChecker diagnostics cmpNode newMembers
    componentDecorator componentOptions :
  mjoin (head (getDeclarationParameters componentDecorator)) = Some componentOptions →
  (validateComponent config typeChecker componentOptions
     (withoutClassDecorators cmpNode) componentDecorator diagnostics).1 = Normal true →
  ∃ appended,
    out_newMembers (componentDecoratorToStatic config typeChecker diagnostics cmpNode
                      newMembers componentDecorator) = newMembers ++ appended
    ∧ NoDup (member_name <$> appended)
    ∧ Forall (λ n, n ∈ Some <$> member_names) (member_name <$> appended)
    ∧ (1 ≤ length appended ≤ 6)%nat.
Proof.
  intros Hopts Hvalid.
  destruct (pass_valid _ _ _ cmpNode newMembers _ _ Hopts Hvalid) as (text & _ & ->).
  eexists. split; [reflexivity|].
  unfold is_member, encapsulation_member, styleUrls_members, assetsDirs_member,
    styles_member.
  destruct (shadow componentOptions), (scoped componentOptions),
    (bool_decide (modeStyleUrls DEFAULT_STYLE_MODE componentOptions = ∅)),
    (bool_decide (_ = [])), (styles componentOptions) as [css|];
    try destruct (bool_decide (JS.trim css = ""));
    cbn [app fmap list_fmap member_name length];
    (split; [by apply (bool_decide_unpack _)|]);
    (split; [by repeat (constructor; [by apply (bool_decide_unpack _)|])|lia]).
Qed.

(** X14. A tag that is absent, is not a string or is blank after trimming is
    reported as missing: when the three checks before it pass, validation
    returns false with the one diagnostic "tag missing in component
    decorator", bound to the annotation node. *)
Theorem blank_tag_is_missing config typeChecker componentOptions cmpNode
    componentDecorator diagnostics :
  extendNode cmpNode = None →
  shadow componentOptions && scoped componentOptions = false →
  otherDecorator cmpNode componentDecorator = None →
  (∀ text, tag componentOptions = Some text → JS.trim text = "") →
  validateComponent config typeChecker componentOptions cmpNode componentDecorator
    diagnostics
  = (Normal false,
     diagnostics
       ++ [error Message.tag_missing (Some (decorator_node componentDecorator))]).
Proof.
  intros Hext Henc Hdec Hblank. unfold validateComponent.
  rewrite Hext, Henc, Hdec.
  destruct (tag componentOptions) as [text|]; [|by run_eff].
  rewrite (Hblank text eq_refl). cbn [String.length Nat.eqb]. by run_eff.
Qed.

(** X15. When the naming-rule checker rejects the tag, which it is given
    untrimmed, validation returns false with one diagnostic: the text of the
    violated rule followed by the reference to the naming rules, bound to the
    [tag] argument sub-node when the annotation has one and to the annotation
    node otherwise. *)
Theorem invalid_tag_diagnostic config typeChecker componentOptions cmpNode
    componentDecorator diagnostics text tagError callee arg arguments :
  extendNode cmpNode = None →
  shadow componentOptions && scoped componentOptions = false →
  otherDecorator cmpNode componentDecorator = None →
  tag componentOptions = Some text →
  JS.trim text ≠ "" →
  validateComponentTag text = Some tagError →
  tagError ≠ "" →
  expression componentDecorator = CallExpression callee (arg :: arguments) →
  validateComponent config typeChecker componentOptions cmpNode componentDecorator
    diagnostics
  = (Normal false,
     diagnostics
       ++ [error (Message.tag_invalid tagError)
             (Some (default (decorator_node componentDecorator)
                      (argumentNode "tag" componentDecorator)))]).
Proof.
  intros Hext Henc Hdec Htag Htrim Herr Hne Hexpr. unfold validateComponent.
  rewrite Hext, Henc, Hdec, Htag, Herr.
  destruct (String.length (JS.trim text) =? 0)%nat eqn:Hlen.
  { apply Nat.eqb_eq in Hlen. by destruct (JS.trim text). }
  destruct tagError as [|c e]; [done|].
  run_eff. rewrite (findTagNode_argumentNode "tag" _ _ _ _ Hexpr). by run_eff.
Qed.

(** X16. A class that still carries a decorator other than the component
    decorator fails validation, when it has no extends clause and [shadow]
    and [scoped] are not both set: one diagnostic, bound to the first
    decorator of the list that is not the component decorator. *)
Theorem other_decorator_fails_validation config typeChecker componentOptions cmpNode
    componentDecorator diagnostics before other after :
  extendNode cmpNode = None →
  shadow componentOptions && scoped componentOptions = false →
  decorators cmpNode = Some (before ++ other :: after) →
  Forall (λ d, decorator_node d = decorator_node componentDecorator) before →
  decorator_node other ≠ decorator_node componentDecorator →
  validateComponent config typeChecker componentOptions cmpNode componentDecorator
    diagnostics
  = (Normal false,
     diagnostics ++ [error Message.decorators (Some (decorator_node other))]).
Proof.
  intros Hext Henc Hdecorators Hbefore Hother.
  assert (List.find (λ d, bool_decide (decorator_node d
                                       ≠ decorator_node componentDecorator))
            (before ++ other :: after) = Some other) as Hfirst.
  { clear Hdecorators. induction Hbefore as [|d before Hd _ IH]; cbn [app List.find].
    - by rewrite bool_decide_true.
    - rewrite bool_decide_false by (intros Hne; by apply Hne). exact IH. }
  assert (otherDecorator cmpNode componentDecorator = Some other) as Hfind
    by (unfold otherDecorator; rewrite Hdecorators; exact Hfirst).
  unfold validateComponent. rewrite Hext, Henc, Hfind. by run_eff.
Qed.

(** X17. Validation reads the tag and the two encapsulation flags of the
    configuration and nothing else: two configurations that agree on [tag],
    [shadow] and [scoped] get the same verdict and the same diagnostics,
    whatever their style sources and asset directories. *)
Theorem validation_ignores_style_sources config typeChecker componentOptions
    componentOptions' cmpNode componentDecorator diagnostics :
  tag componentOptions = tag componentOptions' →
  shadow componentOptions = shadow componentOptions' →
  scoped componentOptions = scoped componentOptions' →
  validateComponent config typeChecker componentOptions cmpNode componentDecorator
    diagnostics
  = validateComponent config typeChecker componentOptions' cmpNode componentDecorator
      diagnostics.
Proof. intros Htag Hshadow Hscoped. unfold validateComponent. by rewrite Htag, Hshadow, Hscoped. Qed.

(** X18. Outside test mode, on a named class of a source file that is a
    module, whose earlier checks pass, when the value declaration of every
    offending export carries a list of modifiers, the single-export rule
    appends one diagnostic for each offending export, in the order of the
    exports, bound to the first modifier of its value declaration or else to
    its first declaration, and validation returns true exactly when there is
    no offending export. *)
Theorem single_export_rule_diagnostics config typeChecker componentOptions cmpNode
    componentDecorator diagnostics text moduleSymbol :
  earlier_checks_pass componentOptions cmpNode componentDecorator →
  _isTesting config = false →
  getSymbolAtLocation typeChecker (sourceFile cmpNode) = Some moduleSymbol →
  name cmpNode = Some text →
  Forall errorNode_defined
    (filter (offending cmpNode) (getExportsOfModule typeChecker moduleSymbol)) →
  validateComponent config typeChecker componentOptions cmpNode componentDecorator
    diagnostics
  = (Normal (bool_decide
               (filter (offending cmpNode)
                  (getExportsOfModule typeChecker moduleSymbol) = [])),
     diagnostics
       ++ (exportError
             <$> filter (offending cmpNode)
                   (getExportsOfModule typeChecker moduleSymbol))).
Proof.
  intros Hearlier Htest Hmodule Hname Hdefined.
  assert (getExportsOfModule typeChecker moduleSymbol
          = moduleExports typeChecker cmpNode) as Hexports
    by (unfold moduleExports; by rewrite Hmodule).
  rewrite Hexports in *.
  by apply (validateComponent_exports _ _ _ _ _ _ text moduleSymbol).
Qed.

End SingleChecks.

(** X19. [findTagNode] throws exactly for an annotation whose call has no
    argument.  Among several property assignments of the wanted name in the
    first argument the last one wins, the other arguments of the call are not
    looked at, and a result other than the annotation node is always the
    initializer of a property assignment of that name. *)
Theorem findTagNode_result propName decorator :
  (findTagNode propName decorator = Thrown TypeError
   ↔ ∃ callee, expression decorator = CallExpression callee [])
  ∧ (∀ callee before initializer after rest,
       expression decorator
       = CallExpression callee
           (ObjectLiteralExpression
              (before ++ PropertyAssignment propName initializer :: after) :: rest) →
       (∀ other, PropertyAssignment propName other ∉ after) →
       findTagNode propName decorator = Normal initializer)
  ∧ (∀ tagNode,
       findTagNode propName decorator = Normal tagNode →
       tagNode ≠ decorator_node decorator →
       ∃ callee properties rest,
         expression decorator
         = CallExpression callee (ObjectLiteralExpression properties :: rest)
         ∧ PropertyAssignment propName tagNode ∈ properties).
Proof.
  assert (∀ p tagNode, property_named propName p = Some tagNode →
                       p = PropertyAssignment propName tagNode) as Hnamed.
  { intros [name_text initializer|] tagNode; [|done]. cbn [property_named].
    case_bool_decide; [|done]. by intros [= <-]; subst. }
  split; [|split].
  - split.
    + destruct (findTagNode_cases propName decorator) as [[tagNode ->]|[_ Hcall]]; done.
    + intros [callee Hcall]. unfold findTagNode. by rewrite Hcall.
  - intros callee before initializer after rest Hexpr Hlast.
    rewrite (findTagNode_argumentNode propName _ _ _ _ Hexpr).
    unfold argumentNode. rewrite Hexpr.
    rewrite omap_app. cbn [omap list_omap property_named].
    rewrite bool_decide_true by done.
    assert (omap (property_named propName) after = []) as Hafter.
    { apply elem_of_nil_inv. intros other [p [Hp Hother]]%list_elem_of_omap.
      apply Hnamed in Hother as ->. by apply (Hlast other). }
    change (list_omap _ _ (property_named propName) after)
      with (omap (property_named propName) after).
    rewrite Hafter. by rewrite last_snoc.
  - intros tagNode Hfound Hne.
    destruct (expression decorator) as [callee [|arg rest]|] eqn:Hexpr.
    + unfold findTagNode in Hfound. by rewrite Hexpr in Hfound.
    + rewrite (findTagNode_argumentNode propName _ _ _ _ Hexpr) in Hfound.
      injection Hfound as Hfound. unfold argumentNode in Hfound. rewrite Hexpr in Hfound.
      destruct arg as [properties|]; [|by destruct Hne].
      destruct (last (omap (property_named propName) properties)) as [found|] eqn:Hlast;
        [|by destruct Hne].
      simpl in Hfound. subst found.
      exists callee, properties, rest. split; [done|].
      apply last_Some_elem_of, list_elem_of_omap in Hlast as [p [Hp Hfound]].
      by apply Hnamed in Hfound as ->.
    + unfold findTagNode in Hfound. rewrite Hexpr in Hfound.
      injection Hfound as <-. by destruct Hne.
Qed.

(** ** The further properties at concrete inputs *)

Example findTagNode_last_wins :
  findTagNode "scoped" Inputs.decorator_twice = Normal 43
  ∧ findTagNode "tag" Inputs.decorator_twice = Normal 42
  ∧ findTagNode "shadow" Inputs.decorator_twice = Normal 40
  ∧ findTagNode "tag" Inputs.otherDecoratorNode = Thrown TypeError.
Proof. repeat split. Qed.

Lemma failed_validation_diagnostics_witness :
  (validateComponent (H := Example.imports Example.options) Example.build
     (Example.exporting [Example.classSymbol; Example.functionSymbol])
     Example.options Example.cmpNode Example.componentDecorator []).1 = Normal false
  ∧ ((∃ d, (validateComponent (H := Example.imports Example.options) Example.build
              (Example.exporting [Example.classSymbol; Example.functionSymbol])
              Example.options Example.cmpNode Example.componentDecorator []).2 = [] ++ [d])
     ∨ (earlier_checks_pass (H := Example.imports Example.options) Example.options
          Example.cmpNode Example.componentDecorator
        ∧ _isTesting Example.build = false
        ∧ is_Some (getSymbolAtLocation
                     (Example.exporting [Example.classSymbol; Example.functionSymbol])
                     (sourceFile Example.cmpNode))
        ∧ filter (offending Example.cmpNode)
            [Example.classSymbol; Example.functionSymbol] ≠ []
        ∧ (validateComponent (H := Example.imports Example.options) Example.build
             (Example.exporting [Example.classSymbol; Example.functionSymbol])
             Example.options Example.cmpNode Example.componentDecorator []).2
          = [] ++ (exportError
                     <$> filter (offending Example.cmpNode)
                           [Example.classSymbol; Example.functionSymbol]))).
Proof.
  assert ((validateComponent (H := Example.imports Example.options) Example.build
             (Example.exporting [Example.classSymbol; Example.functionSymbol])
             Example.options Example.cmpNode Example.componentDecorator []).1
          = Normal false) as Hfalse by (vm_compute; reflexivity).
  split; [exact Hfalse|].
  exact (failed_validation_diagnostics (H := Example.imports Example.options)
           Example.build (Example.exporting [Example.classSymbol; Example.functionSymbol])
           Example.options Example.cmpNode Example.componentDecorator [] Hfalse).
Defined.

Lemma testing_ignores_typeChecker_witness :
  _isTesting Example.testing = true
  ∧ validateComponent (H := Example.imports Example.options) Example.testing
      (Example.exporting [Example.classSymbol; Example.constSymbol])
      Example.options Example.cmpNode Example.componentDecorator []
    = validateComponent (H := Example.imports Example.options) Example.testing
        (Example.exporting []) Example.options Example.cmpNode
        Example.componentDecorator [].
Proof.
  split; [reflexivity|].
  exact (testing_ignores_typeChecker (H := Example.imports Example.options)
           Example.testing
           (Example.exporting [Example.classSymbol; Example.constSymbol])
           (Example.exporting []) Example.options Example.cmpNode
           Example.componentDecorator [] eq_refl).
Defined.

Lemma testing_pass_completes_witness :
  _isTesting Example.testing = true
  ∧ completion (Example.run Example.testing Example.options Example.cmpNode
                  [Example.classSymbol; Example.constSymbol]) = Normal ().
Proof.
  split; [reflexivity|].
  exact (testing_pass_completes (H := Example.imports Example.options) Example.testing
           (Example.exporting [Example.classSymbol; Example.constSymbol]) []
           Example.cmpNode [] Example.componentDecorator eq_refl).
Defined.

Lemma pass_throws_only_in_export_check_witness :
  completion (Example.run Example.build Example.options Example.cmpNode
                [Example.classSymbol; Example.constSymbol]) = Thrown TypeError
  ∧ TypeError = TypeError
  ∧ _isTesting Example.build = false
  ∧ out_newMembers (Example.run Example.build Example.options Example.cmpNode
                      [Example.classSymbol; Example.constSymbol]) = []
  ∧ (getSymbolAtLocation (Example.exporting [Example.classSymbol; Example.constSymbol])
       (sourceFile Example.cmpNode) = None
     ∨ (name Example.cmpNode = None
        ∧ filter (offending Example.cmpNode)
            [Example.classSymbol; Example.constSymbol] ≠ [])
     ∨ ∃ symbol declaration,
         symbol ∈ filter (offending Example.cmpNode)
                    [Example.classSymbol; Example.constSymbol]
         ∧ valueDeclaration symbol = Some declaration
         ∧ modifiers declaration = None).
Proof.
  assert (completion (Example.run Example.build Example.options Example.cmpNode
                        [Example.classSymbol; Example.constSymbol]) = Thrown TypeError)
    as Hthrown by (vm_compute; reflexivity).
  split; [exact Hthrown|].
  exact (pass_throws_only_in_export_check (H := Example.imports Example.options)
           Example.build (Example.exporting [Example.classSymbol; Example.constSymbol]) []
           Example.cmpNode [] Example.componentDecorator TypeError Hthrown).
Defined.

(** The pass on a source file that is not a module. *)
Example pass_throws_outside_module :
  componentDecoratorToStatic (H := Example.imports Example.options) Example.build
    Inputs.notAModule [] Example.cmpNode [] Example.componentDecorator
  = {| completion := Thrown TypeError; out_diagnostics := [];
       out_cmpNode := withoutClassDecorators (H := Example.imports Example.options)
                        Example.cmpNode;
       out_newMembers := [] |}.
Proof. vm_compute. reflexivity. Qed.

Lemma synthesized_member_names_witness :
  mjoin (head (getDeclarationParameters (H := Example.imports Example.options_full)
                 Example.componentDecorator)) = Some Example.options_full
  ∧ (validateComponent (H := Example.imports Example.options_full) Example.build
       (Example.exporting [Example.classSymbol]) Example.options_full
       (withoutClassDecorators (H := Example.imports Example.options_full) Example.cmpNode)
       Example.componentDecorator []).1 = Normal true
  ∧ ∃ appended,
      out_newMembers (Example.run Example.build Example.options_full Example.cmpNode
                        [Example.classSymbol]) = [] ++ appended
      ∧ NoDup (member_name <$> appended)
      ∧ Forall (λ n, n ∈ Some <$> member_names) (member_name <$> appended)
      ∧ (1 ≤ length appended ≤ 6)%nat.
Proof.
  assert ((validateComponent (H := Example.imports Example.options_full) Example.build
             (Example.exporting [Example.classSymbol]) Example.options_full
             (withoutClassDecorators (H := Example.imports Example.options_full)
                Example.cmpNode)
             Example.componentDecorator []).1 = Normal true) as Hvalid
    by (vm_compute; reflexivity).
  split; [reflexivity|]. split; [exact Hvalid|].
  exact (synthesized_member_names (H := Example.imports Example.options_full)
           Example.build (Example.exporting [Example.classSymbol]) [] Example.cmpNode []
           Example.componentDecorator Example.options_full eq_refl Hvalid).
Defined.

Lemma blank_tag_is_missing_witness :
  extendNode Example.cmpNode = None
  ∧ shadow Inputs.options_blank_tag && scoped Inputs.options_blank_tag = false
  ∧ otherDecorator Example.cmpNode Example.componentDecorator = None
  ∧ (∀ text, tag Inputs.options_blank_tag = Some text → JS.trim text = "")
  ∧ validateComponent (H := Example.imports Inputs.options_blank_tag) Example.build
      (Example.exporting [Example.classSymbol]) Inputs.options_blank_tag Example.cmpNode
      Example.componentDecorator []
    = (Normal false,
       [] ++ [error Message.tag_missing (Some (decorator_node Example.componentDecorator))]).
Proof.
  assert (∀ text, tag Inputs.options_blank_tag = Some text → JS.trim text = "") as Hblank
    by (intros text [= <-]; reflexivity).
  split; [reflexivity|]. split; [reflexivity|]. split; [reflexivity|].
  split; [exact Hblank|].
  exact (blank_tag_is_missing (H := Example.imports Inputs.options_blank_tag)
           Example.build (Example.exporting [Example.classSymbol])
           Inputs.options_blank_tag Example.cmpNode Example.componentDecorator []
           eq_refl eq_refl eq_refl Hblank).
Defined.

Lemma invalid_tag_diagnostic_witness :
  extendNode Example.cmpNode = None
  ∧ shadow Inputs.options_no_hyphen && scoped Inputs.options_no_hyphen = false
  ∧ otherDecorator Example.cmpNode Example.componentDecorator = None
  ∧ tag Inputs.options_no_hyphen = Some "mycmp"
  ∧ JS.trim "mycmp" ≠ ""
  ∧ Stencil.validateComponentTag "mycmp"
    = Some (JS.dquote +:+ "mycmp" +:+ JS.dquote
            +:+ " tag must contain a dash (-) to work as a valid web component")
  ∧ validateComponent (H := Example.imports Inputs.options_no_hyphen) Example.build
      (Example.exporting [Example.classSymbol]) Inputs.options_no_hyphen Example.cmpNode
      Example.componentDecorator []
    = (Normal false,
       [] ++ [error (Message.tag_invalid
                       (JS.dquote +:+ "mycmp" +:+ JS.dquote
                        +:+ " tag must contain a dash (-) to work as a valid web component"))
                (Some (default (decorator_node Example.componentDecorator)
                         (argumentNode "tag" Example.componentDecorator)))]).
Proof.
  split; [reflexivity|]. split; [reflexivity|]. split; [reflexivity|].
  split; [reflexivity|]. split; [discriminate|]. split; [reflexivity|].
  apply (invalid_tag_diagnostic (H := Example.imports Inputs.options_no_hyphen)
           Example.build (Example.exporting [Example.classSymbol])
           Inputs.options_no_hyphen Example.cmpNode Example.componentDecorator []
           "mycmp" _ (Some "Component")
           (ObjectLiteralExpression
              [PropertyAssignment "tag" 11; PropertyAssignment "styleUrl" 12;
               PropertyAssignment "scoped" 13]) []);
    [reflexivity | reflexivity | reflexivity | reflexivity | discriminate
    | reflexivity | discriminate | reflexivity].
Defined.

Lemma other_decorator_fails_validation_witness :
  extendNode Inputs.cmpNode_three_decorators = None
  ∧ shadow Example.options && scoped Example.options = false
  ∧ decorators Inputs.cmpNode_three_decorators
    = Some ([Example.componentDecorator]
              ++ Inputs.otherDecoratorNode :: [Inputs.thirdDecoratorNode])
  ∧ Forall (λ d, decorator_node d = decorator_node Example.componentDecorator)
      [Example.componentDecorator]
  ∧ decorator_node Inputs.otherDecoratorNode ≠ decorator_node Example.componentDecorator
  ∧ validateComponent (H := Example.imports Example.options) Example.build
      (Example.exporting [Example.classSymbol]) Example.options
      Inputs.cmpNode_three_decorators Example.componentDecorator []
    = (Normal false, [] ++ [error Message.decorators (Some 30)]).
Proof.
  assert (Forall (λ d, decorator_node d = decorator_node Example.componentDecorator)
            [Example.componentDecorator]) as Hbefore
    by (constructor; [reflexivity|constructor]).
  assert (decorator_node Inputs.otherDecoratorNode
          ≠ decorator_node Example.componentDecorator) as Hother by discriminate.
  split; [reflexivity|]. split; [reflexivity|]. split; [reflexivity|].
  split; [exact Hbefore|]. split; [exact Hother|].
  exact (other_decorator_fails_validation (H := Example.imports Example.options)
           Example.build (Example.exporting [Example.classSymbol]) Example.options
           Inputs.cmpNode_three_decorators Example.componentDecorator []
           [Example.componentDecorator] Inputs.otherDecoratorNode
           [Inputs.thirdDecoratorNode] eq_refl eq_refl eq_refl Hbefore Hother).
Defined.

Lemma validation_ignores_style_sources_witness :
  tag Example.options = tag Example.options_modes
  ∧ shadow Example.options = shadow Example.options_modes
  ∧ scoped Example.options = scoped Example.options_modes
  ∧ validateComponent (H := Example.imports Example.options) Example.build
      (Example.exporting [Example.classSymbol; Example.functionSymbol])
      Example.options Example.cmpNode Example.componentDecorator []
    = validateComponent (H := Example.imports Example.options) Example.build
        (Example.exporting [Example.classSymbol; Example.functionSymbol])
        Example.options_modes Example.cmpNode Example.componentDecorator [].
Proof.
  split; [reflexivity|]. split; [reflexivity|]. split; [reflexivity|].
  exact (validation_ignores_style_sources (H := Example.imports Example.options)
           Example.build
           (Example.exporting [Example.classSymbol; Example.functionSymbol])
           Example.options Example.options_modes Example.cmpNode
           Example.componentDecorator [] eq_refl eq_refl eq_refl).
Defined.

Lemma single_export_rule_diagnostics_witness :
  earlier_checks_pass (H := Example.imports Example.options) Example.options
    Example.cmpNode Example.componentDecorator
  ∧ _isTesting Example.build = false
  ∧ getSymbolAtLocation
      (Example.exporting
         [Example.classSymbol; Example.interfaceSymbol; Example.functionSymbol])
      (sourceFile Example.cmpNode) = Some 0
  ∧ name Example.cmpNode = Some "MyCmp"
  ∧ Forall errorNode_defined
      (filter (offending Example.cmpNode)
         [Example.classSymbol; Example.interfaceSymbol; Example.functionSymbol])
  ∧ validateComponent (H := Example.imports Example.options) Example.build
      (Example.exporting
         [Example.classSymbol; Example.interfaceSymbol; Example.functionSymbol])
      Example.options Example.cmpNode Example.componentDecorator []
    = (Normal (bool_decide
                 (filter (offending Example.cmpNode)
                    [Example.classSymbol; Example.interfaceSymbol;
                     Example.functionSymbol] = [])),
       [] ++ (exportError
                <$> filter (offending Example.cmpNode)
                      [Example.classSymbol; Example.interfaceSymbol;
                       Example.functionSymbol])).
Proof.
  assert (earlier_checks_pass (H := Example.imports Example.options) Example.options
            Example.cmpNode Example.componentDecorator) as Hearlier.
  { split; [reflexivity|]. split; [reflexivity|]. split; [reflexivity|].
    exists "my-cmp". split; [reflexivity|]. split; [discriminate|reflexivity]. }
  assert (Forall errorNode_defined
            (filter (offending Example.cmpNode)
               [Example.classSymbol; Example.interfaceSymbol; Example.functionSymbol]))
    as Hdefined.
  { assert (filter (offending Example.cmpNode)
              [Example.classSymbol; Example.interfaceSymbol; Example.functionSymbol]
            = [Example.functionSymbol]) as -> by (vm_compute; reflexivity).
    constructor; [|constructor].
    intros declaration [= <-]. by eexists. }
  split; [exact Hearlier|]. split; [reflexivity|]. split; [reflexivity|].
  split; [reflexivity|]. split; [exact Hdefined|].
  exact (single_export_rule_diagnostics (H := Example.imports Example.options)
           Example.build
           (Example.exporting
              [Example.classSymbol; Example.interfaceSymbol; Example.functionSymbol])
           Example.options Example.cmpNode Example.componentDecorator [] "MyCmp" 0
           Hearlier eq_refl eq_refl eq_refl Hdefined).
Defined.

(** ** Reporting and synthesizing *)
Section ReportOrSynthesize.

Context `{Imports}.

(** X20. An invocation never both reports and synthesizes: either it leaves
    the diagnostics list as it was, or it leaves the member list as it
    was. *)
Theorem pass_reports_or_synthesizes config typeChecker diagnostics cmpNode newMembers
    componentDecorator :
  out_diagnostics (componentDecoratorToStatic config typeChecker diagnostics cmpNode
                     newMembers componentDecorator) = diagnostics
  ∨ out_newMembers (componentDecoratorToStatic config typeChecker diagnostics cmpNode
                      newMembers componentDecorator) = newMembers.
Proof.
  unfold componentDecoratorToStatic.
  destruct (mjoin _) as [componentOptions|]; [|by left].
  destruct (validateComponent_added config typeChecker componentOptions
              (withoutClassDecorators cmpNode) componentDecorator diagnostics)
    as (added & Hadded & _ & Htrue & _).
  destruct (validateComponent _ _ _ _ _ _) as [[[]|e] diagnostics'];
    cbn [fst snd] in *; [|by right..].
  left. rewrite Hadded, (Htrue eq_refl), app_nil_r.
  by destruct (synthesize _ _ _).
Qed.

(** X21. In test mode the exports of the module are not checked: when the
    checks on the class and the configuration pass, validation returns true
    and appends nothing, whatever the module exports. *)
Theorem testing_skips_export_check config typeChecker componentOptions cmpNode
    componentDecorator diagnostics :
  earlier_checks_pass componentOptions cmpNode componentDecorator →
  _isTesting config = true →
  validateComponent config typeChecker componentOptions cmpNode componentDecorator
    diagnostics = (Normal true, diagnostics).
Proof. intros Hearlier Htest. by apply validateComponent_testing. Qed.

(** X22. For a configuration that passes validation at most one of [shadow]
    and [scoped] is set, and the appended members hold the encapsulation
    ["shadow"] exactly when [shadow] is set and the encapsulation ["scoped"]
    exactly when [scoped] is set. *)
Theorem encapsulation_literal config typeChecker diagnostics cmpNode newMembers
    componentDecorator componentOptions :
  mjoin (head (getDeclarationParameters componentDecorator)) = Some componentOptions →
  (validateComponent config typeChecker componentOptions
     (withoutClassDecorators cmpNode) componentDecorator diagnostics).1 = Normal true →
  shadow componentOptions && scoped componentOptions = false
  ∧ ∃ appended,
      out_newMembers (componentDecoratorToStatic config typeChecker diagnostics cmpNode
                        newMembers componentDecorator) = newMembers ++ appended
      ∧ (createStaticGetter "encapsulation" (LitString "shadow") ∈ appended
         ↔ shadow componentOptions = true)
      ∧ (createStaticGetter "encapsulation" (LitString "scoped") ∈ appended
         ↔ scoped componentOptions = true).
Proof.
  intros Hopts Hvalid.
  destruct (validateComponent_true _ _ _ _ _ _ Hvalid) as (_ & _ & _ & _ & Henc).
  split; [done|].
  destruct (pass_valid _ _ _ cmpNode newMembers _ _ Hopts Hvalid) as (text & _ & ->).
  eexists. split; [reflexivity|].
  unfold is_member, encapsulation_member, styleUrls_members, assetsDirs_member,
    styles_member.
  destruct (shadow componentOptions), (scoped componentOptions); try done;
    destruct (bool_decide (modeStyleUrls DEFAULT_STYLE_MODE componentOptions = ∅)),
      (bool_decide (_ = [])), (styles componentOptions) as [css|];
    try destruct (bool_decide (JS.trim css = ""));
    cbn [app]; rewrite ?elem_of_cons, ?elem_of_nil; intuition congruence.
Qed.

End ReportOrSynthesize.

Lemma testing_skips_export_check_witness :
  earlier_checks_pass (H := Example.imports Example.options) Example.options
    Example.cmpNode Example.componentDecorator
  ∧ _isTesting Example.testing = true
  ∧ validateComponent (H := Example.imports Example.options) Example.testing
      (Example.exporting
         [Example.classSymbol; Example.functionSymbol; Example.constSymbol])
      Example.options Example.cmpNode Example.componentDecorator []
    = (Normal true, []).
Proof.
  assert (earlier_checks_pass (H := Example.imports Example.options) Example.options
            Example.cmpNode Example.componentDecorator) as Hearlier.
  { split; [reflexivity|]. split; [reflexivity|]. split; [reflexivity|].
    exists "my-cmp". split; [reflexivity|]. split; [discriminate|reflexivity]. }
  split; [exact Hearlier|]. split; [reflexivity|].
  exact (testing_skips_export_check (H := Example.imports Example.options)
           Example.testing
           (Example.exporting
              [Example.classSymbol; Example.functionSymbol; Example.constSymbol])
           Example.options Example.cmpNode Example.componentDecorator []
           Hearlier eq_refl).
Defined.

Lemma encapsulation_literal_witness :
  mjoin (head (getDeclarationParameters (H := Example.imports Example.options_full)
                 Example.componentDecorator)) = Some Example.options_full
  ∧ (validateComponent (H := Example.imports Example.options_full) Example.build
       (Example.exporting [Example.classSymbol]) Example.options_full
       (withoutClassDecorators (H := Example.imports Example.options_full) Example.cmpNode)
       Example.componentDecorator []).1 = Normal true
  ∧ shadow Example.options_full && scoped Example.options_full = false
  ∧ ∃ appended,
      out_newMembers (Example.run Example.build Example.options_full Example.cmpNode
                        [Example.classSymbol]) = [] ++ appended
      ∧ (createStaticGetter "encapsulation" (LitString "shadow") ∈ appended
         ↔ shadow Example.options_full = true)
      ∧ (createStaticGetter "encapsulation" (LitString "scoped") ∈ appended
         ↔ scoped Example.options_full = true).
Proof.
  assert ((validateComponent (H := Example.imports Example.options_full) Example.build
             (Example.exporting [Example.classSymbol]) Example.options_full
             (withoutClassDecorators (H := Example.imports Example.options_full)
                Example.cmpNode)
             Example.componentDecorator []).1 = Normal true) as Hvalid
    by (vm_compute; reflexivity).
  split; [reflexivity|]. split; [exact Hvalid|].
  exact (encapsulation_literal (H := Example.imports Example.options_full)
           Example.build (Example.exporting [Example.classSymbol]) [] Example.cmpNode []
           Example.componentDecorator Example.options_full eq_refl Hvalid).
Defined.

(** ** White space that is not ASCII *)

(** A tag that is a no-break space is blank after trimming: it is reported
    as missing, on the annotation node. *)
Example blank_tag_no_break_space :
  validateComponent (H := Example.imports Inputs.options_nbsp_tag) Example.build
    (Example.exporting [Example.classSymbol]) Inputs.options_nbsp_tag Example.cmpNode
    Example.componentDecorator []
  = (Normal false, [error Message.tag_missing (Some 10)]).
Proof. vm_compute. reflexivity. Qed.

(** Inline styles that are a no-break space are empty after trimming: no
    [styles] member is appended. *)
Example styles_no_break_space_omitted :
  out_newMembers (Example.run Example.build Inputs.options_nbsp_styles Example.cmpNode
                    [Example.classSymbol])
  = [createStaticGetter "is" (LitString "my-cmp")].
Proof. vm_compute. reflexivity. Qed.
